(** * Weather Analytics: the fetch-resolve-transform pipeline of [src/App.js]

    A shallow embedding of the component [WeatherAnalyticsApp]: the geocoding
    disambiguation, the weather-code table, the view-model transformation,
    the forecast window, the recommendations and the state transitions of
    [fetchWeather] and [handleSearch], followed by the properties the
    specification states about them.

    Conventions of the embedding:
    - a JavaScript string is its sequence of UTF-16 code units;
    - a JavaScript number that carries a measurement is a binary64 float
      (Rocq's primitive [float]), so [/], [<] and [>] are the IEEE operations
      the engine runs; weather codes are integers and array indices are
      naturals;
    - the two HTTP endpoints, the wall clock and the locale time formatter are
      the environment [Env] of an invocation;
    - React state is the record [AppState]; [fetchWeather] runs in a
      state-and-exception monad over [World], in which a [throw] keeps the
      state written before it, as in JavaScript. *)

From Stdlib Require Import ZArith NArith Bool Lia Ascii String List Floats.
Import ListNotations.

Set Warnings "-inexact-float".

(* ================================================================== *)
(** * JavaScript values and the built-ins the component calls *)
(* ================================================================== *)

Module JS.

(** ** Strings *)

Definition char16 := N.
Definition jsstring := list char16.

(** A source literal made of Basic Latin characters, as code units. *)
Definition lit (s : string) : jsstring :=
  map N_of_ascii (list_ascii_of_string s).

Fixpoint string_eqb (a b : jsstring) : bool :=
  match a, b with
  | [], [] => true
  | x :: a', y :: b' => N.eqb x y && string_eqb a' b'
  | _, _ => false
  end.

(** [s.startsWith(p)] *)
Fixpoint startsWith (s p : jsstring) {struct p} : bool :=
  match p, s with
  | [], _ => true
  | _ :: _, [] => false
  | y :: p', x :: s' => N.eqb x y && startsWith s' p'
  end.

(** [s.includes(p)]: [p] occurs in [s] at some position; case sensitive. *)
Fixpoint includes (s p : jsstring) : bool :=
  startsWith s p ||
  match s with
  | [] => false
  | _ :: s' => includes s' p
  end.

(** [toLowerCase] of one code unit of the Basic Latin block; code units
    outside [A-Z] are left as they are.  The component only lowers table
    literals and the three category names, which are Basic Latin. *)
Definition lower16 (c : char16) : char16 :=
  if (65 <=? c)%N && (c <=? 90)%N then (c + 32)%N else c.

Definition toLowerCase (s : jsstring) : jsstring := map lower16 s.

(** ECMAScript WhiteSpace and LineTerminator code points, all of them in the
    Basic Multilingual Plane: what [String.prototype.trim] strips. *)
Definition is_whitespace (c : char16) : bool :=
  let z := Z.of_N c in
  ((9 <=? z) && (z <=? 13) || (z =? 32) || (z =? 160) || (z =? 5760)
   || (8192 <=? z) && (z <=? 8202) || (z =? 8232) || (z =? 8233)
   || (z =? 8239) || (z =? 8287) || (z =? 12288) || (z =? 65279))%Z.

Fixpoint trimStart (s : jsstring) : jsstring :=
  match s with
  | [] => []
  | c :: s' => if is_whitespace c then trimStart s' else s
  end.

Definition trimEnd (s : jsstring) : jsstring := rev (trimStart (rev s)).

Definition trim (s : jsstring) : jsstring := trimEnd (trimStart s).

(** Surrogate code units. *)
Definition is_high_surrogate (c : char16) : bool :=
  (55296 <=? c)%N && (c <=? 56319)%N.
Definition is_low_surrogate (c : char16) : bool :=
  (56320 <=? c)%N && (c <=? 57343)%N.

(** [s.isWellFormed()]: no lone surrogate, that is, every high surrogate is
    followed by a low one and every low surrogate follows a high one. *)
Fixpoint isWellFormed (s : jsstring) : bool :=
  match s with
  | [] => true
  | c :: rest =>
      if is_high_surrogate c then
        match rest with
        | d :: rest' => is_low_surrogate d && isWellFormed rest'
        | [] => false
        end
      else if is_low_surrogate c then false
      else isWellFormed rest
  end.

(** Truthiness of a string: the empty string is the only falsy one. *)
Definition string_truthy (s : jsstring) : bool :=
  match s with [] => false | _ :: _ => true end.

(** ** Numbers *)

Definition number := float.

(** [a > b] is [b < a]. *)
Definition gtb (a b : number) : bool := (b <? a)%float.

(** The integer [n] as a float carrying the sign [s] of the rounded value,
    so that a negative value rounding to zero gives [-0]. *)
Definition float_of_Z (s : bool) (n : Z) : number :=
  let f := PrimFloat.of_uint63 (Uint63.of_Z (Z.abs n)) in
  if s then (- f)%float else f.

(** [floor (num / den + 1/2)] in integers, for [0 < den]. *)
Definition round_half_up (num den : Z) : Z := ((2 * num + den) / (2 * den))%Z.

(** [Math.round]: the integer nearest to [x], ties towards [+Infinity];
    NaN, the infinities, the zeros and the floats that are integers already
    are returned unchanged. *)
Definition Math_round (x : number) : number :=
  match Prim2SF x with
  | S754_finite s m e =>
      if (e <? 0)%Z
      then float_of_Z s (round_half_up (if s then Z.neg m else Z.pos m) (2 ^ (- e)))
      else x
  | _ => x
  end.

(** ** Values read out of a parsed JSON array of numbers *)

Inductive value :=
| Undefined               (* an index past the end of the array *)
| Null                    (* a [null] entry *)
| Num (x : number).

Definition ToNumber (v : value) : number :=
  match v with
  | Undefined => nan
  | Null => 0%float
  | Num x => x
  end.

Definition ToBoolean (v : value) : bool :=
  match v with
  | Undefined | Null => false
  | Num x => negb ((x =? 0)%float || PrimFloat.is_nan x)
  end.

(** [a || b] *)
Definition or_else (a b : value) : value := if ToBoolean a then a else b.

(** [arr[i]] *)
Definition index (arr : list value) (i : nat) : value := nth i arr Undefined.

(** ** Exceptions *)

Inductive exn :=
| Error (message : jsstring)       (* [new Error(message)] *)
| TypeError (message : jsstring)   (* what [fetch] rejects with, and a failed destructuring *)
| URIError (message : jsstring).   (* what [encodeURIComponent] throws *)

End JS.

Import JS.

(* ================================================================== *)
(** * Data model *)
(* ================================================================== *)

(** One candidate of the geocoding response.  [country] and [feature_code]
    may be absent from the JSON object. *)
Record Candidate := {
  latitude : number;
  longitude : number;
  name : jsstring;
  country : option jsstring;
  feature_code : option jsstring
}.

(** The geocoding response body; the service leaves [results] out when it
    finds nothing. *)
Record GeoData := { results : option (list Candidate) }.

(** [weatherData.current] *)
Module Current.
Record t := {
  temperature_2m : number;
  relative_humidity_2m : number;
  apparent_temperature : number;
  weather_code : Z;
  wind_speed_10m : number;
  surface_pressure : number
}.
End Current.

(** [weatherData.hourly]: parallel arrays indexed by hour. *)
Module Hourly.
Record t := {
  time : list jsstring;
  temperature_2m : list value;
  relative_humidity_2m : list value;
  apparent_temperature : list value;
  precipitation_probability : list value
}.
End Hourly.

(** The weather response body.  The component does not validate it: either
    block can be missing from the JSON object. *)
Record WeatherResponse := {
  current : option Current.t;
  hourly : option Hourly.t
}.

(** The three strings of [weather[0].main]. *)
Inductive Condition := Rain | Clouds | Clear.

Definition Condition_string (c : Condition) : jsstring :=
  match c with
  | Rain => lit "Rain"
  | Clouds => lit "Clouds"
  | Clear => lit "Clear"
  end.

(** [transformedData], the object kept in the [weatherData] state. *)
Module Main.
Record t := {
  temp : number;
  feels_like : number;
  humidity : number;
  pressure : number
}.
End Main.

Module Weather.
Record t := { main : Condition; description : jsstring }.
End Weather.

Module Wind.
Record t := { speed : number }.
End Wind.

Module WeatherData.
Record t := {
  name : jsstring;
  main : Main.t;
  weather_0 : Weather.t;     (* the one element of the [weather] array *)
  wind : Wind.t
}.
End WeatherData.

(** One element of [processedForecast]. *)
Module ForecastPoint.
Record t := {
  time : jsstring;
  temp : number;
  feels_like : number;
  humidity : value;
  rain : value
}.
End ForecastPoint.

(** The [useState] cells of the component. *)
Record AppState := {
  location : jsstring;
  searchInput : jsstring;
  weatherData : option WeatherData.t;
  forecast : list ForecastPoint.t;
  loading : bool;
  error : jsstring
}.

Definition initialState : AppState :=
  {| location := []; searchInput := []; weatherData := None;
     forecast := []; loading := false; error := [] |}.

(* ================================================================== *)
(** * Geocoder: the best match among the candidates *)
(* ================================================================== *)

(** [r.feature_code === code] *)
Definition has_feature_code (code : jsstring) (r : Candidate) : bool :=
  match feature_code r with
  | Some c => string_eqb c code
  | None => false
  end.

(** [a || b] on a possibly undefined object: an object is always truthy. *)
Definition or_object {A} (a b : option A) : option A :=
  match a with
  | Some x => Some x
  | None => b
  end.

(** [results.find(PPLC) || results.find(PPLA) || results[0]] *)
Definition bestMatch (results : list Candidate) : option Candidate :=
  or_object (find (has_feature_code (lit "PPLC")) results)
    (or_object (find (has_feature_code (lit "PPLA")) results)
       (nth_error results 0)).

(* ================================================================== *)
(** * View-model transformer *)
(* ================================================================== *)

Definition weatherCodes : list (Z * jsstring) :=
  [ (0, lit "Clear sky"); (1, lit "Mainly clear"); (2, lit "Partly cloudy");
    (3, lit "Overcast");
    (45, lit "Foggy"); (48, lit "Foggy"); (51, lit "Light drizzle");
    (53, lit "Drizzle"); (55, lit "Heavy drizzle");
    (61, lit "Light rain"); (63, lit "Rain"); (65, lit "Heavy rain");
    (71, lit "Light snow"); (73, lit "Snow"); (75, lit "Heavy snow");
    (80, lit "Light showers"); (81, lit "Showers"); (82, lit "Heavy showers");
    (95, lit "Thunderstorm") ]%Z.

(** [obj[key]] on an object literal with integer keys. *)
Fixpoint property (obj : list (Z * jsstring)) (key : Z) : option jsstring :=
  match obj with
  | [] => None
  | (k, v) :: obj' => if (k =? key)%Z then Some v else property obj' key
  end.

(** [weatherCodes[code] || 'Unknown'] *)
Definition getWeatherDescription (code : Z) : jsstring :=
  match property weatherCodes code with
  | Some s => if string_truthy s then s else lit "Unknown"
  | None => lit "Unknown"
  end.

(** The value of [weather[0].main] for a description. *)
Definition conditionOf (weatherDesc : jsstring) : Condition :=
  if includes weatherDesc (lit "rain") || includes weatherDesc (lit "shower")
  then Rain
  else if includes weatherDesc (lit "cloud") || includes weatherDesc (lit "Overcast")
  then Clouds
  else Clear.

(** The template literal [`${name}${country ? ', ' + country : ''}`]. *)
Definition displayName (best : Candidate) : jsstring :=
  name best ++
  match country best with
  | Some c => if string_truthy c then lit ", " ++ c else []
  | None => []
  end.

Definition transformedData (best : Candidate) (cur : Current.t) : WeatherData.t :=
  let weatherDesc := getWeatherDescription (Current.weather_code cur) in
  {| WeatherData.name := displayName best;
     WeatherData.main :=
       {| Main.temp := Current.temperature_2m cur;
          Main.feels_like := Current.apparent_temperature cur;
          Main.humidity := Current.relative_humidity_2m cur;
          Main.pressure := Current.surface_pressure cur |};
     WeatherData.weather_0 :=
       {| Weather.main := conditionOf weatherDesc;
          Weather.description := toLowerCase weatherDesc |};
     WeatherData.wind :=
       {| Wind.speed := (Current.wind_speed_10m cur / 3.6)%float |} |}.

(** [hourlyData.time[hour]] for [hour < hourlyData.time.length]. *)
Definition time_at (hourlyData : Hourly.t) (hour : nat) : jsstring :=
  nth hour (Hourly.time hourlyData) [].

(** The object pushed for index [hour]; [format] is
    [new Date(_).toLocaleTimeString('en-US', ...)]. *)
Definition forecastPoint (format : jsstring -> jsstring)
    (hourlyData : Hourly.t) (hour : nat) : ForecastPoint.t :=
  {| ForecastPoint.time := format (time_at hourlyData hour);
     ForecastPoint.temp :=
       Math_round (ToNumber (index (Hourly.temperature_2m hourlyData) hour));
     ForecastPoint.feels_like :=
       Math_round (ToNumber (index (Hourly.apparent_temperature hourlyData) hour));
     ForecastPoint.humidity := index (Hourly.relative_humidity_2m hourlyData) hour;
     ForecastPoint.rain :=
       or_else (index (Hourly.precipitation_probability hourlyData) hour)
               (Num 0%float) |}.

(** The body of the loop at iteration [i], on the array built so far:
    [const hour = currentHour + i; if (hour < hourlyData.time.length) push]. *)
Definition forecast_step (format : jsstring -> jsstring) (hourlyData : Hourly.t)
    (currentHour : nat) (acc : list ForecastPoint.t) (i : nat) :=
  let hour := currentHour + i in
  if hour <? length (Hourly.time hourlyData)
  then acc ++ [forecastPoint format hourlyData hour]
  else acc.

(** The loop [for (let i = 0; i < 8; i++)], from the empty array. *)
Definition processedForecast (format : jsstring -> jsstring)
    (hourlyData : Hourly.t) (currentHour : nat) : list ForecastPoint.t :=
  fold_left (forecast_step format hourlyData currentHour) (seq 0 8) [].

(* ================================================================== *)
(** * Recommendation generator *)
(* ================================================================== *)

Definition advice_warm_jacket : jsstring :=
  [55358; 56805]%N ++ lit " Wear a warm jacket".
Definition advice_light_jacket : jsstring :=
  [55357; 56405]%N ++ lit " Light jacket recommended".
Definition advice_outdoor : jsstring :=
  [9728; 65039]%N ++ lit " Perfect for outdoor activities".
Definition advice_umbrella : jsstring :=
  [9730; 65039]%N ++ lit " Don't forget your umbrella".
Definition advice_hydrated : jsstring :=
  [55357; 56487]%N ++ lit " High humidity - stay hydrated".
Definition advice_windy : jsstring :=
  [55357; 56488]%N ++ lit " Windy conditions expected".

(** [if (c) recommendations.push(s)] *)
Definition push_if (c : bool) (s : jsstring) (recommendations : list jsstring) :=
  if c then recommendations ++ [s] else recommendations.

Definition getRecommendations (weatherData : option WeatherData.t) : list jsstring :=
  match weatherData with
  | None => []
  | Some wd =>
      let temp := Main.temp (WeatherData.main wd) in
      let condition :=
        toLowerCase (Condition_string (Weather.main (WeatherData.weather_0 wd))) in
      let recommendations := [] in
      let recommendations :=
        if (temp <? 10)%float then recommendations ++ [advice_warm_jacket]
        else if (temp <? 20)%float then recommendations ++ [advice_light_jacket]
        else recommendations ++ [advice_outdoor] in
      let recommendations :=
        push_if (includes condition (lit "rain")) advice_umbrella recommendations in
      let recommendations :=
        push_if (gtb (Main.humidity (WeatherData.main wd)) 70%float) advice_hydrated
                recommendations in
      let recommendations :=
        push_if (gtb (Wind.speed (WeatherData.wind wd)) 10%float) advice_windy
                recommendations in
      recommendations
  end.

(* ================================================================== *)
(** * The pipeline: [fetchWeather] and [handleSearch] *)
(* ================================================================== *)

(** What [await fetch(url)] gives: a rejection (transport error), or a
    response with its [ok] flag and the JSON body [await response.json()]
    parses out of it, which the component reads only when [ok] holds. *)
Inductive FetchOutcome (A : Type) :=
| Rejected (reason : exn)
| Resolved (ok : bool) (json : A).
Arguments Rejected {A} reason.
Arguments Resolved {A} ok json.

(** The two URLs, by what varies in them. *)
Inductive Request :=
| GeocodingRequest (city : jsstring)
| ForecastRequest (latitude longitude : number).

(** The world outside the component during one invocation. *)
Record Env := {
  geocoding_api : jsstring -> FetchOutcome GeoData;
  forecast_api : number -> number -> FetchOutcome WeatherResponse;
  getHours : nat;                                (* [new Date().getHours()] *)
  toLocaleTimeString : jsstring -> jsstring
}.

(** What the component can write: its state, the console, the network. *)
Record World := {
  app : AppState;
  console : list exn;          (* arguments of [console.error], oldest first *)
  requests : list Request      (* calls of [fetch], oldest first *)
}.

Definition with_app (f : AppState -> AppState) (w : World) : World :=
  {| app := f (app w); console := console w; requests := requests w |}.

Definition M (A : Type) : Type := World -> (exn + A) * World.

Definition ret {A} (a : A) : M A := fun w => (inr a, w).

Definition bind {A B} (m : M A) (k : A -> M B) : M B :=
  fun w =>
    match m w with
    | (inl e, w') => (inl e, w')
    | (inr a, w') => k a w'
    end.

Definition throw {A} (e : exn) : M A := fun w => (inl e, w).

Notation "x <- m ;; k" := (bind m (fun x => k))
  (at level 61, m at next level, right associativity).
Notation "m ;;; k" := (bind m (fun _ => k))
  (at level 61, right associativity).

(** [try { body } catch (err) { handler err } finally { final }] *)
Definition try_catch_finally (body : M unit) (handler : exn -> M unit)
    (final : M unit) : M unit :=
  fun w =>
    let (r, w1) := body w in
    let (r', w2) := match r with
                    | inl err => handler err w1
                    | inr tt => (inr tt, w1)
                    end in
    let (rf, w3) := final w2 in
    (match rf with inl e => inl e | inr _ => r' end, w3).

Definition setLocation (v : jsstring) : M unit := fun w =>
  (inr tt, with_app (fun s =>
     {| location := v; searchInput := searchInput s; weatherData := weatherData s;
        forecast := forecast s; loading := loading s; error := error s |}) w).

Definition setSearchInput (v : jsstring) : M unit := fun w =>
  (inr tt, with_app (fun s =>
     {| location := location s; searchInput := v; weatherData := weatherData s;
        forecast := forecast s; loading := loading s; error := error s |}) w).

Definition setWeatherData (v : WeatherData.t) : M unit := fun w =>
  (inr tt, with_app (fun s =>
     {| location := location s; searchInput := searchInput s; weatherData := Some v;
        forecast := forecast s; loading := loading s; error := error s |}) w).

Definition setForecast (v : list ForecastPoint.t) : M unit := fun w =>
  (inr tt, with_app (fun s =>
     {| location := location s; searchInput := searchInput s;
        weatherData := weatherData s;
        forecast := v; loading := loading s; error := error s |}) w).

Definition setLoading (v : bool) : M unit := fun w =>
  (inr tt, with_app (fun s =>
     {| location := location s; searchInput := searchInput s;
        weatherData := weatherData s;
        forecast := forecast s; loading := v; error := error s |}) w).

Definition setError (v : jsstring) : M unit := fun w =>
  (inr tt, with_app (fun s =>
     {| location := location s; searchInput := searchInput s;
        weatherData := weatherData s;
        forecast := forecast s; loading := loading s; error := v |}) w).

Definition console_error (err : exn) : M unit := fun w =>
  (inr tt, {| app := app w; console := console w ++ [err]; requests := requests w |}).

(** [await fetch(url)]: the request is recorded, then the promise settles. *)
Definition fetch {A} (req : Request) (outcome : FetchOutcome A) : M (bool * A) :=
  fun w =>
    let w' := {| app := app w; console := console w;
                 requests := requests w ++ [req] |} in
    match outcome with
    | Rejected reason => (inl reason, w')
    | Resolved ok json => (inr (ok, json), w')
    end.

Definition City_not_found : exn := Error (lit "City not found").
Definition Unable_to_fetch : exn := Error (lit "Unable to fetch weather data").
Definition user_message : jsstring :=
  lit "Unable to fetch weather data. Please try another city.".

Definition malformed_URI : exn := URIError (lit "URI malformed").

(** [encodeURIComponent(city)] inside the template literal of the first URL:
    it throws a [URIError] when the string has a lone surrogate.  The encoded
    text is not kept: a [Request] stands for the URL. *)
Definition encodeURIComponent (uriComponent : jsstring) : M unit :=
  if isWellFormed uriComponent then ret tt else throw malformed_URI.

(** The statements of the [try] block, up to the choice of [bestMatch]. *)
Definition geocode (env : Env) (city : jsstring) : M Candidate :=
  encodeURIComponent city ;;;
  geoResponse <- fetch (GeocodingRequest city) (geocoding_api env city) ;;
  let (ok, geoData) := geoResponse in
  if negb ok then throw City_not_found else
  match results geoData with
  | None => throw City_not_found
  | Some candidates =>
      if length candidates =? 0 then throw City_not_found else
      match bestMatch candidates with
      | Some best => ret best
      | None => throw (TypeError (lit "Cannot destructure 'bestMatch'"))
      end
  end.

(** The second [fetch] and its status check. *)
Definition retrieve (env : Env) (best : Candidate) : M WeatherResponse :=
  weatherResponse <-
    fetch (ForecastRequest (latitude best) (longitude best))
          (forecast_api env (latitude best) (longitude best)) ;;
  let (ok, weatherData) := weatherResponse in
  if negb ok then throw Unable_to_fetch else ret weatherData.

(** The first property read on a block of the response, [block.field]: a
    [TypeError] when the block is [undefined]. *)
Definition read {A} (block : option A) (field : string) : M A :=
  match block with
  | Some b => ret b
  | None =>
      throw (TypeError (lit "Cannot read properties of undefined (reading '"
                        ++ lit field ++ lit "')"))
  end.

(** The rest of the [try] block: the transformation and the state writes, in
    the order of the source. *)
Definition display (env : Env) (best : Candidate) (weatherData : WeatherResponse)
  : M unit :=
  cur <- read (current weatherData) "weather_code" ;;
  let transformed := transformedData best cur in
  setWeatherData transformed ;;;
  setLocation (WeatherData.name transformed) ;;;
  let currentHour := getHours env in
  hourlyData <- read (hourly weatherData) "time" ;;
  setForecast (processedForecast (toLocaleTimeString env) hourlyData currentHour).

(** The whole [try] block. *)
Definition fetchWeather_try (env : Env) (city : jsstring) : M unit :=
  best <- geocode env city ;;
  weatherData <- retrieve env best ;;
  display env best weatherData.

Definition fetchWeather (env : Env) (city : jsstring) : M unit :=
  setLoading true ;;;
  setError [] ;;;
  try_catch_finally
    (fetchWeather_try env city)
    (fun err => setError user_message ;;; console_error err)
    (setLoading false).

(** [handleSearch]: a string is truthy when it is not empty. *)
Definition handleSearch (env : Env) : M unit :=
  fun w =>
    if string_truthy (trim (searchInput (app w)))
    then fetchWeather env (trim (searchInput (app w))) w
    else (inr tt, w).

(** The effect that runs once on mount. *)
Definition onMount (env : Env) : M unit := fetchWeather env (lit "London").

(* ================================================================== *)
(** * Presentation: the icon, the event handlers and the rendered page *)
(* ================================================================== *)

(** The [lucide-react] components [getWeatherIcon] returns. *)
Inductive Component := Cloud | CloudRain | Sun.

(** A JSX element [<Component className=... />]. *)
Record Icon := { component : Component; className : jsstring }.

(** [getWeatherIcon(condition)]; [None] is an [undefined] or [null]
    argument, falsy like the empty string. *)
Definition getWeatherIcon (condition : option jsstring) : Icon :=
  match condition with
  | None => {| component := Cloud; className := lit "w-16 h-16" |}
  | Some c =>
      if negb (string_truthy c)
      then {| component := Cloud; className := lit "w-16 h-16" |}
      else
        let main := toLowerCase c in
        if includes main (lit "rain")
        then {| component := CloudRain; className := lit "w-16 h-16 text-blue-400" |}
        else if includes main (lit "cloud")
        then {| component := Cloud; className := lit "w-16 h-16 text-gray-400" |}
        else {| component := Sun; className := lit "w-16 h-16 text-yellow-400" |}
  end.

(** [onChange] of the text input: [setSearchInput(e.target.value)]. *)
Definition onChange (value : jsstring) : M unit := setSearchInput value.

(** [onKeyPress] of the text input: [if (e.key === 'Enter') handleSearch()]. *)
Definition onKeyPress (env : Env) (key : jsstring) : M unit :=
  if string_eqb key (lit "Enter") then handleSearch env else ret tt.

(** [onClick] of the search button. *)
Definition onClick (env : Env) : M unit := handleSearch env.

(** The current-weather card, by the expressions its JSX binds. *)
Module Card.
Record t := {
  heading : jsstring;             (* [{location}] *)
  date : jsstring;                (* [new Date().toLocaleDateString(...)] *)
  icon : Icon;                    (* [getWeatherIcon(weatherData.weather[0].main)] *)
  temperature : number;           (* [Math.round(weatherData.main.temp)] *)
  description : jsstring;         (* [weatherData.weather[0].description] *)
  feels_like : number;            (* [Math.round(weatherData.main.feels_like)] *)
  wind_speed : number;            (* [weatherData.wind.speed] *)
  humidity : number;              (* [weatherData.main.humidity] *)
  pressure : number               (* [weatherData.main.pressure] *)
}.
End Card.

(** What is rendered when data is there: the card, the recommendations and
    the three charts, each chart by the rows its [dataKey]s read out of
    [forecast]. *)
Record Dashboard := {
  card : Card.t;
  advisories : list jsstring;
  temperature_chart : list (jsstring * number * number);  (* time, temp, feels_like *)
  humidity_chart : list (jsstring * value);               (* time, humidity *)
  rain_chart : list (jsstring * value)                    (* time, rain *)
}.

(** [loading ? spinner : weatherData ? dashboard : null] *)
Inductive Body := Spinner | Shown (d : Dashboard) | Nothing.

Record Page := {
  search_value : jsstring;        (* [value={searchInput}] *)
  banner : option jsstring;       (* [{error && <div>{error}</div>}] *)
  body : Body
}.

Definition dashboard (today : jsstring) (s : AppState) (wd : WeatherData.t)
  : Dashboard :=
  {| card :=
       {| Card.heading := location s;
          Card.date := today;
          Card.icon :=
            getWeatherIcon
              (Some (Condition_string (Weather.main (WeatherData.weather_0 wd))));
          Card.temperature := Math_round (Main.temp (WeatherData.main wd));
          Card.description := Weather.description (WeatherData.weather_0 wd);
          Card.feels_like := Math_round (Main.feels_like (WeatherData.main wd));
          Card.wind_speed := Wind.speed (WeatherData.wind wd);
          Card.humidity := Main.humidity (WeatherData.main wd);
          Card.pressure := Main.pressure (WeatherData.main wd) |};
     advisories := getRecommendations (weatherData s);
     temperature_chart :=
       map (fun p => (ForecastPoint.time p, ForecastPoint.temp p,
                      ForecastPoint.feels_like p)) (forecast s);
     humidity_chart :=
       map (fun p => (ForecastPoint.time p, ForecastPoint.humidity p)) (forecast s);
     rain_chart :=
       map (fun p => (ForecastPoint.time p, ForecastPoint.rain p)) (forecast s) |}.

(** The returned JSX, as a function of the state; [today] is the formatted
    date of the render. *)
Definition render (today : jsstring) (s : AppState) : Page :=
  {| search_value := searchInput s;
     banner := if string_truthy (error s) then Some (error s) else None;
     body :=
       if loading s then Spinner
       else match weatherData s with
            | Some wd => Shown (dashboard today s wd)
            | None => Nothing
            end |}.

(* ================================================================== *)
(** * Vocabulary of the specification *)
(* ================================================================== *)

(** [x] is the first element of [l] that satisfies [p]. *)
Definition first_such {A} (p : A -> bool) (l : list A) (x : A) : Prop :=
  exists pre post,
    l = pre ++ x :: post /\ p x = true /\ Forall (fun y => p y = false) pre.

(** No element of [l] satisfies [p]. *)
Definition none_such {A} (p : A -> bool) (l : list A) : Prop :=
  Forall (fun y => p y = false) l.

Definition is_capital : Candidate -> bool := has_feature_code (lit "PPLC").
Definition is_main_city : Candidate -> bool := has_feature_code (lit "PPLA").

(** The text [p] occurs inside the text [s]. *)
Definition contains (s p : jsstring) : Prop :=
  exists pre post, s = pre ++ p ++ post.

(** The codes the weather-code table documents. *)
Definition documented_codes : list Z :=
  [0; 1; 2; 3; 45; 48; 51; 53; 55; 61; 63; 65; 71; 73; 75; 80; 81; 82; 95]%Z.

(** The category the transformer gives a weather code: code, then text,
    then category. *)
Definition categoryOfCode (code : Z) : Condition :=
  conditionOf (getWeatherDescription code).

(** The codes the specification calls the rain and shower families. *)
Definition rain_family_codes : list Z := [51; 53; 55; 61; 63; 65; 80; 81; 82]%Z.

Definition Condition_eqb (a b : Condition) : bool :=
  match a, b with
  | Rain, Rain | Clouds, Clouds | Clear, Clear => true
  | _, _ => false
  end.

(** The sign bit of a float, read from its IEEE 754 fields. *)
Definition sign_bit (r : number) : bool :=
  match Prim2SF r with
  | S754_zero s | S754_infinity s | S754_finite s _ _ => s
  | S754_nan => false
  end.

(** The integer a float stands for, when it stands for one: the zeros stand
    for 0, a finite float [(-1)^s * m * 2^e] for [(-1)^s * m * 2^e] when
    that is an integer; the infinities and NaN stand for none. *)
Definition integer_of (r : number) : option Z :=
  match Prim2SF r with
  | S754_zero _ => Some 0%Z
  | S754_finite s m e =>
      let sm := if s then Z.neg m else Z.pos m in
      if (0 <=? e)%Z then Some (sm * 2 ^ e)%Z
      else if (Z.pos m mod 2 ^ (- e) =? 0)%Z then Some (sm / 2 ^ (- e))%Z
      else None
  | _ => None
  end.

(** [r] is the integer nearest to [x], the tie going up: for a finite float
    [x = (-1)^s * m * 2^e] with a fractional part ([e < 0]), [r] stands for
    the integer [n] with [n - 1/2 <= x < n + 1/2] and has the sign of [x]
    (so a negative [x] above [-1/2] gives [-0]); a float without fractional
    part, a zero, an infinity or NaN is its own rounding. *)
Definition nearest_integer (x r : number) : Prop :=
  match Prim2SF x with
  | S754_finite s m e =>
      if (e <? 0)%Z
      then exists n : Z,
             integer_of r = Some n /\ sign_bit r = s /\
             let num := if s then Z.neg m else Z.pos m in
             let den := (2 ^ (- e))%Z in
             (2 * n * den - den <= 2 * num < 2 * n * den + den)%Z
      else r = x
  | _ => r = x
  end.

(** The city can be put into the URL and both services answered: the lookup
    with the candidates among which [best] is the best match, the retrieval
    with the blocks [cur] and [hourlyData]. *)
Definition responds (env : Env) (city : jsstring) (best : Candidate)
    (cur : Current.t) (hourlyData : Hourly.t) : Prop :=
  isWellFormed city = true /\
  exists candidates,
    geocoding_api env city = Resolved true {| results := Some candidates |} /\
    bestMatch candidates = Some best /\
    forecast_api env (latitude best) (longitude best) =
      Resolved true {| current := Some cur; hourly := Some hourlyData |}.

(** The world after one more call of [fetch]. *)
Definition add_request (req : Request) (w : World) : World :=
  {| app := app w; console := console w; requests := requests w ++ [req] |}.

(** The state after [setWeatherData] and [setLocation]. *)
Definition view_shown (best : Candidate) (cur : Current.t) (s : AppState)
  : AppState :=
  {| location := displayName best;
     searchInput := searchInput s;
     weatherData := Some (transformedData best cur);
     forecast := forecast s;
     loading := loading s;
     error := error s |}.

(** The state after the [try] block ran to its end. *)
Definition shown (env : Env) (best : Candidate) (cur : Current.t)
    (hourlyData : Hourly.t) (s : AppState) : AppState :=
  {| location := displayName best;
     searchInput := searchInput s;
     weatherData := Some (transformedData best cur);
     forecast := processedForecast (toLocaleTimeString env) hourlyData (getHours env);
     loading := loading s;
     error := error s |}.

(** What a failing lookup and a failing retrieval throw: the rejection of
    the transport, or the [Error] of the status check. *)
Definition lookup_error (o : FetchOutcome GeoData) : exn :=
  match o with
  | Rejected reason => reason
  | Resolved _ _ => City_not_found
  end.

Definition retrieval_error (o : FetchOutcome WeatherResponse) : exn :=
  match o with
  | Rejected reason => reason
  | Resolved _ _ => Unable_to_fetch
  end.

(** [setLoading(l); setError(e)] on a state. *)
Definition loading_error (l : bool) (e : jsstring) (s : AppState) : AppState :=
  {| location := location s; searchInput := searchInput s;
     weatherData := weatherData s; forecast := forecast s;
     loading := l; error := e |}.

(** *** Failure kinds

    The component throws plain [Error]s; the specification names a failure
    after the stage that raised it. *)

(** The lookup returns zero candidates, or the call itself fails (a status
    that is not a success, or a transport error). *)
Definition lookup_fails (o : FetchOutcome GeoData) : bool :=
  match o with
  | Rejected _ => true
  | Resolved ok geoData =>
      negb ok ||
      match results geoData with
      | None => true
      | Some candidates => length candidates =? 0
      end
  end.

(** The retrieval returns a status that is not a success, or a transport
    error occurs. *)
Definition retrieval_fails (o : FetchOutcome WeatherResponse) : bool :=
  match o with
  | Rejected _ => true
  | Resolved ok _ => negb ok
  end.

(** The place a successful lookup resolves to. *)
Definition resolved_place (o : FetchOutcome GeoData) : option Candidate :=
  match o with
  | Resolved true {| results := Some candidates |} => bestMatch candidates
  | _ => None
  end.

(** The Geocoder stage of the invocation fails, throwing [e]. *)
Definition NotFoundError (env : Env) (city : jsstring) (w : World) (e : exn) : Prop :=
  fst (geocode env city w) = inl e.

(** The Geocoder stage succeeds and the Weather Fetcher stage fails,
    throwing [e]. *)
Definition FetchError (env : Env) (city : jsstring) (w : World) (e : exn) : Prop :=
  exists best w1,
    geocode env city w = (inr best, w1) /\
    fst (retrieve env best w1) = inl e.

(** Both stages succeed and the rest of the [try] block throws [e]: a block
    of the response is missing. *)
Definition MalformedResponse (env : Env) (city : jsstring) (w : World) (e : exn)
  : Prop :=
  exists best w1 wr w2,
    geocode env city w = (inr best, w1) /\
    retrieve env best w1 = (inr wr, w2) /\
    fst (display env best wr w2) = inl e.

(** A whitespace-only (possibly empty) input. *)
Definition blank (s : jsstring) : bool := forallb is_whitespace s.

(** ** Sample inputs *)

Definition paris_texas : Candidate :=
  {| latitude := 33.66094%float; longitude := (-95.55551)%float; name := lit "Paris";
     country := Some (lit "United States"); feature_code := Some (lit "PPLA2") |}.
Definition paris_kentucky : Candidate :=
  {| latitude := 38.2098%float; longitude := (-84.25299)%float; name := lit "Paris";
     country := Some (lit "United States"); feature_code := Some (lit "PPLA") |}.
Definition paris_france : Candidate :=
  {| latitude := 48.85341%float; longitude := 2.3488%float; name := lit "Paris";
     country := Some (lit "France"); feature_code := Some (lit "PPLC") |}.

(** Scenario A of the specification: the capital is at index 2. *)
Definition paris_candidates : list Candidate :=
  [paris_texas; paris_kentucky; paris_france].

(** Scenario B of the specification: rain, humid, 40 km/h of wind. *)
Definition scenario_B : Current.t :=
  {| Current.temperature_2m := 15.3%float;
     Current.relative_humidity_2m := 80%float;
     Current.apparent_temperature := 14.1%float;
     Current.weather_code := 61%Z;
     Current.wind_speed_10m := 40%float;
     Current.surface_pressure := 1012.4%float |}.

Definition two_hours : Hourly.t :=
  {| Hourly.time := [lit "2024-05-01T00:00"; lit "2024-05-01T01:00"];
     Hourly.temperature_2m := [Num 21.5%float; Num 20.4%float];
     Hourly.relative_humidity_2m := [Num 80%float; Num 75%float];
     Hourly.apparent_temperature := [Num 19.6%float; Null];
     Hourly.precipitation_probability := [Null; Num 35%float] |}.

(** Four hours whose values lie on and around a half: a tie above zero, a
    tie below zero, a negative value that rounds to zero and a plain one. *)
Definition half_degrees : Hourly.t :=
  {| Hourly.time := [lit "2024-01-15T00:00"; lit "2024-01-15T01:00";
                     lit "2024-01-15T02:00"; lit "2024-01-15T03:00"];
     Hourly.temperature_2m :=
       [Num 2.5%float; Num (-2.5)%float; Num (-0.3)%float; Num 20.4%float];
     Hourly.relative_humidity_2m :=
       [Num 90%float; Num 91%float; Num 92%float; Num 93%float];
     Hourly.apparent_temperature :=
       [Num (-7.5)%float; Num 0.5%float; Num (-0.5)%float; Num 1.4999%float];
     Hourly.precipitation_probability :=
       [Num 0%float; Num 10%float; Null; Num 100%float] |}.

(** Scenario C of the specification: no hourly entry at all. *)
Definition no_hours : Hourly.t :=
  {| Hourly.time := []; Hourly.temperature_2m := [];
     Hourly.relative_humidity_2m := []; Hourly.apparent_temperature := [];
     Hourly.precipitation_probability := [] |}.

Definition online : Env :=
  {| geocoding_api := fun _ => Resolved true {| results := Some paris_candidates |};
     forecast_api := fun _ _ =>
       Resolved true {| current := Some scenario_B; hourly := Some two_hours |};
     getHours := 0;
     toLocaleTimeString := fun s => s |}.

(** The transport fails: [fetch] rejects. *)
Definition offline : Env :=
  {| geocoding_api := fun _ => Rejected (TypeError (lit "Failed to fetch"));
     forecast_api := fun _ _ => Rejected (TypeError (lit "Failed to fetch"));
     getHours := 0;
     toLocaleTimeString := fun s => s |}.

(** The weather service answers with an error status. *)
Definition weather_down : Env :=
  {| geocoding_api := fun _ => Resolved true {| results := Some paris_candidates |};
     forecast_api := fun _ _ =>
       Resolved false {| current := None; hourly := None |};
     getHours := 0;
     toLocaleTimeString := fun s => s |}.

(** The weather service answers without its hourly block. *)
Definition no_hourly_block : Env :=
  {| geocoding_api := fun _ => Resolved true {| results := Some paris_candidates |};
     forecast_api := fun _ _ =>
       Resolved true {| current := Some scenario_B; hourly := None |};
     getHours := 0;
     toLocaleTimeString := fun s => s |}.

(** A view showing a mild, dry, calm day. *)
Definition mild_day : WeatherData.t :=
  {| WeatherData.name := lit "Paris, France";
     WeatherData.main :=
       {| Main.temp := 25%float; Main.feels_like := 25%float;
          Main.humidity := 50%float; Main.pressure := 1015%float |};
     WeatherData.weather_0 :=
       {| Weather.main := Clear; Weather.description := lit "clear sky" |};
     WeatherData.wind := {| Wind.speed := 2%float |} |}.

Definition showing_mild_day : World :=
  {| app := {| location := lit "Paris, France"; searchInput := lit "  Oslo ";
               weatherData := Some mild_day; forecast := [];
               loading := false; error := [] |};
     console := []; requests := [] |}.

(** *** Outcomes of an invocation

    How far the [try] block gets, by the city and the answers of the two
    services. *)
Inductive Outcome :=
| CityMalformed
| LookupFailed (e : exn)
| RetrievalFailed (best : Candidate) (e : exn)
| CurrentMissing (best : Candidate)
| HourlyMissing (best : Candidate) (cur : Current.t)
| Displayed (best : Candidate) (cur : Current.t) (hourlyData : Hourly.t).

Definition outcome (env : Env) (city : jsstring) : Outcome :=
  let lookup := geocoding_api env city in
  if negb (isWellFormed city) then CityMalformed
  else if lookup_fails lookup then LookupFailed (lookup_error lookup)
  else
    match resolved_place lookup with
    | None => LookupFailed (TypeError (lit "Cannot destructure 'bestMatch'"))
    | Some best =>
        let retrieval := forecast_api env (latitude best) (longitude best) in
        match retrieval with
        | Resolved true wr =>
            match current wr, hourly wr with
            | None, _ => CurrentMissing best
            | Some cur, None => HourlyMissing best cur
            | Some cur, Some hourlyData => Displayed best cur hourlyData
            end
        | _ => RetrievalFailed best (retrieval_error retrieval)
        end
    end.

(** What the [try] block throws, if it does. *)
Definition thrown (o : Outcome) : option exn :=
  match o with
  | CityMalformed => Some malformed_URI
  | LookupFailed e | RetrievalFailed _ e => Some e
  | CurrentMissing _ =>
      Some (TypeError (lit "Cannot read properties of undefined (reading 'weather_code')"))
  | HourlyMissing _ _ =>
      Some (TypeError (lit "Cannot read properties of undefined (reading 'time')"))
  | Displayed _ _ _ => None
  end.

(** The requests it sends. *)
Definition sent (city : jsstring) (o : Outcome) : list Request :=
  match o with
  | CityMalformed => []
  | LookupFailed _ => [GeocodingRequest city]
  | RetrievalFailed best _ | CurrentMissing best | HourlyMissing best _
  | Displayed best _ _ =>
      [GeocodingRequest city; ForecastRequest (latitude best) (longitude best)]
  end.

(** The state it leaves. *)
Definition written (env : Env) (o : Outcome) (s : AppState) : AppState :=
  match o with
  | CityMalformed | LookupFailed _ | RetrievalFailed _ _ | CurrentMissing _ => s
  | HourlyMissing best cur => view_shown best cur s
  | Displayed best cur hourlyData => shown env best cur hourlyData s
  end.

(** The final values of the error message and of the console. *)
Definition message (o : Outcome) : jsstring :=
  match thrown o with Some _ => user_message | None => [] end.

Definition logged (o : Outcome) : list exn :=
  match thrown o with Some e => [e] | None => [] end.

(** The location label is the name of the view on display. *)
Definition label_matches_view (s : AppState) : Prop :=
  match weatherData s with
  | Some wd => location s = WeatherData.name wd
  | None => True
  end.

(** [arr.slice(start, start + n)] *)
Definition slice {A} (arr : list A) (start n : nat) : list A :=
  firstn n (skipn start arr).

(** The temperature advisory of a view. *)
Definition temperature_advice (temp : number) : jsstring :=
  if (temp <? 10)%float then advice_warm_jacket
  else if (temp <? 20)%float then advice_light_jacket
  else advice_outdoor.

(** The codes whose text contains "rain" or "shower", and those whose text
    contains "cloud" or "Overcast", as the tests are written. *)
Definition rainy_codes : list Z := [61; 65; 80; 82]%Z.
Definition cloudy_codes : list Z := [2; 3]%Z.

Definition code_in (codes : list Z) (code : Z) : bool :=
  existsb (fun k => (k =? code)%Z) codes.

(** The hourly arrays are parallel: as long as [time]. *)
Definition parallel (hourlyData : Hourly.t) : Prop :=
  length (Hourly.temperature_2m hourlyData) = length (Hourly.time hourlyData) /\
  length (Hourly.relative_humidity_2m hourlyData) = length (Hourly.time hourlyData) /\
  length (Hourly.apparent_temperature hourlyData) = length (Hourly.time hourlyData) /\
  length (Hourly.precipitation_probability hourlyData) =
    length (Hourly.time hourlyData).

(** Two time stamps and a single temperature: the value arrays end early. *)
Definition ragged_hours : Hourly.t :=
  {| Hourly.time := [lit "2024-05-01T00:00"; lit "2024-05-01T01:00"];
     Hourly.temperature_2m := [Null];
     Hourly.relative_humidity_2m := [];
     Hourly.apparent_temperature := [];
     Hourly.precipitation_probability := [] |}.

(** The codes whose text, once in lower case, contains "rain" or "shower"
    while the text as written in the table does not. *)
Definition capitalised_codes : list Z := [63; 81]%Z.

(** No capital letter of the Basic Latin block. *)
Definition lower_case (s : jsstring) : Prop :=
  Forall (fun c => (c < 65 \/ 90 < c)%N) s.

(** The candidates of a lookup that answered with a success status. *)
Definition results_of (o : FetchOutcome GeoData) : option (list Candidate) :=
  match o with
  | Resolved true geoData => results geoData
  | _ => None
  end.

(** A state on display, with a stale error message. *)
Definition after_a_failure : World :=
  {| app := {| location := lit "Paris, France"; searchInput := lit "Atlantis";
               weatherData := Some mild_day; forecast := [];
               loading := false; error := user_message |};
     console := [City_not_found];
     requests := [GeocodingRequest (lit "Atlantis")] |}.

(* ================================================================== *)
(** * Lemmas on the built-ins *)
(* ================================================================== *)

Lemma startsWith_spec (s p : jsstring) :
  startsWith s p = true <-> exists post, s = p ++ post.
Proof.
  revert s; induction p as [|y p IH]; intros s; simpl.
  - split; [intros _; now exists s | reflexivity].
  - destruct s as [|x s]; simpl.
    + split; [discriminate | intros [post H]; discriminate].
    + rewrite andb_true_iff, N.eqb_eq, IH. split.
      * intros [-> [post ->]]. now exists post.
      * intros [post H]. injection H as -> ->. split; [reflexivity | now exists post].
Qed.

Lemma includes_spec (s p : jsstring) :
  includes s p = true <-> contains s p.
Proof.
  unfold contains. induction s as [|x s IH].
  - simpl. rewrite orb_false_r, startsWith_spec. split.
    + intros [post H]. exists [], post. exact H.
    + intros [pre [post H]]. destruct pre; simpl in H.
      * now exists post.
      * discriminate.
  - cbn [includes]. rewrite orb_true_iff, IH, startsWith_spec. split.
    + intros [[post H] | [pre [post H]]].
      * exists [], post. exact H.
      * exists (x :: pre), post. simpl. now rewrite H.
    + intros [pre [post H]]. destruct pre as [|y pre]; simpl in H.
      * left. now exists post.
      * right. injection H as _ H. now exists pre, post.
Qed.

Lemma includes_false (s p : jsstring) :
  includes s p = false <-> ~ contains s p.
Proof.
  rewrite <- includes_spec. destruct (includes s p); split; congruence.
Qed.

Lemma find_first_such {A} (p : A -> bool) (l : list A) (x : A) :
  find p l = Some x <-> first_such p l x.
Proof.
  unfold first_such. revert x; induction l as [|a l IH]; intros x; simpl.
  - split; [discriminate | intros [pre [post [H _]]]; destruct pre; discriminate].
  - destruct (p a) eqn:Ha.
    + split.
      * intros [= <-]. exists [], l. repeat split; auto.
      * intros [pre [post [H [Hx Hpre]]]]. destruct pre as [|b pre]; simpl in H.
        -- now injection H as ->.
        -- injection H as -> _. inversion Hpre; congruence.
    + rewrite IH. split.
      * intros [pre [post [-> [Hx Hpre]]]]. exists (a :: pre), post. repeat split; auto.
      * intros [pre [post [H [Hx Hpre]]]]. destruct pre as [|b pre]; simpl in H.
        -- injection H as -> _. congruence.
        -- injection H as -> ->. exists pre, post. inversion Hpre; auto.
Qed.

Lemma find_none_such {A} (p : A -> bool) (l : list A) :
  find p l = None <-> none_such p l.
Proof.
  unfold none_such. induction l as [|a l IH]; simpl.
  - split; auto.
  - destruct (p a) eqn:Ha.
    + split; [discriminate | intros H; inversion H; congruence].
    + rewrite IH. split; [auto | intros H; now inversion H].
Qed.

(* ================================================================== *)
(** * Geocoder *)
(* ================================================================== *)

Lemma bestMatch_nonempty (candidates : list Candidate) :
  candidates <> [] -> exists r, bestMatch candidates = Some r /\ In r candidates.
Proof.
  intros Hne. unfold bestMatch, or_object.
  destruct (find _ candidates) as [c|] eqn:Hc.
  - exists c. split; [reflexivity | now apply find_some in Hc].
  - destruct (find (has_feature_code (lit "PPLA")) candidates) as [a|] eqn:Ha.
    + exists a. split; [reflexivity | now apply find_some in Ha].
    + destruct candidates as [|r rest]; [congruence|].
      exists r. split; [reflexivity | now left].
Qed.

(** C1. Whatever the candidate list, [bestMatch] is the first candidate whose
    feature code is that of a country capital; without a capital, the first
    one whose feature code is that of a primary administrative city; with
    neither, the first candidate of the list.  A non-empty list always has a
    best match, and it is one of the candidates. *)
Theorem bestMatch_preference (candidates : list Candidate) :
  (forall r, first_such is_capital candidates r ->
             bestMatch candidates = Some r) /\
  (forall r, none_such is_capital candidates ->
             first_such is_main_city candidates r ->
             bestMatch candidates = Some r) /\
  (forall r rest, none_such is_capital candidates ->
                  none_such is_main_city candidates ->
                  candidates = r :: rest ->
                  bestMatch candidates = Some r) /\
  (candidates <> [] ->
   exists r, bestMatch candidates = Some r /\ In r candidates).
Proof.
  unfold bestMatch, is_capital, is_main_city. repeat split.
  - intros r H. apply find_first_such in H. now rewrite H.
  - intros r Hc Ha. apply find_none_such in Hc. apply find_first_such in Ha.
    now rewrite Hc, Ha.
  - intros r rest Hc Ha ->. apply find_none_such in Hc, Ha.
    now rewrite Hc, Ha.
  - apply bestMatch_nonempty.
Qed.

(** Scenario A: the capital at index 2 is chosen over the two candidates
    before it. *)
Lemma bestMatch_scenario_A :
  first_such is_capital paris_candidates paris_france /\
  bestMatch paris_candidates = Some paris_france.
Proof.
  assert (H : first_such is_capital paris_candidates paris_france).
  { exists [paris_texas; paris_kentucky], []. repeat split.
    repeat constructor. }
  split; [exact H |].
  exact (proj1 (bestMatch_preference paris_candidates) paris_france H).
Defined.

(* ================================================================== *)
(** * Weather-code table *)
(* ================================================================== *)

(** C2. The weather-code table is total: each documented code has its listed
    text, and every other integer gives "Unknown". *)
Theorem getWeatherDescription_total :
  (getWeatherDescription 0 = lit "Clear sky" /\
   getWeatherDescription 1 = lit "Mainly clear" /\
   getWeatherDescription 2 = lit "Partly cloudy" /\
   getWeatherDescription 3 = lit "Overcast" /\
   getWeatherDescription 45 = lit "Foggy" /\
   getWeatherDescription 48 = lit "Foggy" /\
   getWeatherDescription 51 = lit "Light drizzle" /\
   getWeatherDescription 53 = lit "Drizzle" /\
   getWeatherDescription 55 = lit "Heavy drizzle" /\
   getWeatherDescription 61 = lit "Light rain" /\
   getWeatherDescription 63 = lit "Rain" /\
   getWeatherDescription 65 = lit "Heavy rain" /\
   getWeatherDescription 71 = lit "Light snow" /\
   getWeatherDescription 73 = lit "Snow" /\
   getWeatherDescription 75 = lit "Heavy snow" /\
   getWeatherDescription 80 = lit "Light showers" /\
   getWeatherDescription 81 = lit "Showers" /\
   getWeatherDescription 82 = lit "Heavy showers" /\
   getWeatherDescription 95 = lit "Thunderstorm") /\
  (forall code : Z, ~ In code documented_codes ->
                    getWeatherDescription code = lit "Unknown").
Proof.
  split; [repeat split |].
  intros code Hout. unfold getWeatherDescription, weatherCodes, property.
  repeat match goal with
         | |- context [(?k =? code)%Z] =>
             destruct (Z.eqb_spec k code) as [<- | _];
             [exfalso; apply Hout; unfold documented_codes; simpl; tauto |]
         end.
  reflexivity.
Qed.

(** A code outside the table. *)
Lemma getWeatherDescription_unknown_96 :
  ~ In 96%Z documented_codes /\ getWeatherDescription 96 = lit "Unknown".
Proof.
  assert (H : ~ In 96%Z documented_codes).
  { unfold documented_codes; simpl; intros H.
    repeat (destruct H as [H | H]; [discriminate H |]). exact H. }
  split; [exact H | exact (proj2 getWeatherDescription_total 96%Z H)].
Defined.

(* ================================================================== *)
(** * Category derivation *)
(* ================================================================== *)

(** The category is read off the description text, in the order rain or
    shower, then cloud or Overcast, then the default. *)
Lemma conditionOf_rule (d : jsstring) :
  (contains d (lit "rain") \/ contains d (lit "shower") ->
   conditionOf d = Rain) /\
  (~ contains d (lit "rain") -> ~ contains d (lit "shower") ->
   contains d (lit "cloud") \/ contains d (lit "Overcast") ->
   conditionOf d = Clouds) /\
  (~ contains d (lit "rain") -> ~ contains d (lit "shower") ->
   ~ contains d (lit "cloud") -> ~ contains d (lit "Overcast") ->
   conditionOf d = Clear).
Proof.
  unfold conditionOf. repeat split.
  - intros [H | H]; apply includes_spec in H; rewrite H;
      [reflexivity | now rewrite orb_true_r].
  - intros Hr Hs H. apply includes_false in Hr, Hs. rewrite Hr, Hs. simpl.
    destruct H as [H | H]; apply includes_spec in H; rewrite H;
      [reflexivity | now rewrite orb_true_r].
  - intros Hr Hs Hc Ho. apply includes_false in Hr, Hs, Hc, Ho.
    now rewrite Hr, Hs, Hc, Ho.
Qed.

(** C3, as the specification states it, fails: code 51 is in the family the
    specification lists, its text "Light drizzle" contains neither "rain" nor
    "shower", and its category is Clear. *)
Lemma drizzle_is_not_Rain :
  ~ (forall code, In code rain_family_codes -> categoryOfCode code = Rain).
Proof.
  intros H. specialize (H 51%Z).
  assert (Hin : In 51%Z rain_family_codes) by (simpl; tauto).
  specialize (H Hin). vm_compute in H. discriminate H.
Qed.

(** C3, amended. The category of a weather code is derived from its
    description text by the substring rule, in the order rain or shower, then
    cloud or Overcast, then Clear, the codes
    61, 65, 80 and 82 are in category Rain, and the drizzle codes 51, 53 and
    55, whose texts contain neither "rain" nor "shower", are in category
    Clear. *)
Theorem category_by_description (best : Candidate) (cur : Current.t) :
  let d := getWeatherDescription (Current.weather_code cur) in
  let category := Weather.main (WeatherData.weather_0 (transformedData best cur)) in
  category = categoryOfCode (Current.weather_code cur) /\
  (contains d (lit "rain") \/ contains d (lit "shower") -> category = Rain) /\
  (~ contains d (lit "rain") -> ~ contains d (lit "shower") ->
   contains d (lit "cloud") \/ contains d (lit "Overcast") ->
   category = Clouds) /\
  (~ contains d (lit "rain") -> ~ contains d (lit "shower") ->
   ~ contains d (lit "cloud") -> ~ contains d (lit "Overcast") ->
   category = Clear) /\
  (In (Current.weather_code cur) [61; 65; 80; 82]%Z -> category = Rain) /\
  (In (Current.weather_code cur) [51; 53; 55]%Z -> category = Clear).
Proof.
  cbv zeta. cbn [transformedData WeatherData.weather_0 Weather.main].
  split; [reflexivity |].
  destruct (conditionOf_rule (getWeatherDescription (Current.weather_code cur)))
    as [H1 [H2 H3]].
  repeat split; auto.
  - intros Hin. simpl in Hin.
    repeat (destruct Hin as [<- | Hin]; [reflexivity |]). contradiction.
  - intros Hin. simpl in Hin.
    repeat (destruct Hin as [<- | Hin]; [reflexivity |]). contradiction.
Qed.

(** Scenario B: code 61, "Light rain", is in category Rain. *)
Lemma category_scenario_B :
  In (Current.weather_code scenario_B) [61; 65; 80; 82]%Z /\
  Weather.main (WeatherData.weather_0 (transformedData paris_france scenario_B))
    = Rain.
Proof.
  assert (H : In (Current.weather_code scenario_B) [61; 65; 80; 82]%Z)
    by (left; reflexivity).
  split; [exact H |].
  exact (proj1 (proj2 (proj2 (proj2 (proj2
           (category_by_description paris_france scenario_B))))) H).
Defined.

(** Code 63 has the text "Rain", with a capital, and code 81 the text
    "Showers": neither contains "rain" or "shower" as written in the test. *)
Example category_63_81 :
  categoryOfCode 63 = Clear /\ categoryOfCode 81 = Clear.
Proof. split; reflexivity. Qed.

(* ================================================================== *)
(** * Forecast window *)
(* ================================================================== *)

Section Forecast.

Variable format : jsstring -> jsstring.
Variable hourlyData : Hourly.t.
Variable currentHour : nat.

(** The loop from iteration [a] on, for [n] more iterations. *)
Lemma forecast_loop (n a : nat) (acc : list ForecastPoint.t) :
  fold_left (forecast_step format hourlyData currentHour) (seq a n) acc =
  acc ++ map (forecastPoint format hourlyData)
           (seq (currentHour + a)
                (Nat.min n (length (Hourly.time hourlyData) - (currentHour + a)))).
Proof.
  revert a acc; induction n as [|n IH]; intros a acc.
  - simpl. now rewrite app_nil_r.
  - cbn [seq fold_left]. rewrite IH. unfold forecast_step.
    set (L := length (Hourly.time hourlyData)).
    destruct (Nat.ltb_spec (currentHour + a) L) as [Hlt | Hge].
    + replace (L - (currentHour + a)) with (S (L - (currentHour + S a))) by lia.
      rewrite <- Nat.succ_min_distr. cbn [seq map].
      rewrite <- app_assoc. cbn [app].
      now replace (S (currentHour + a)) with (currentHour + S a) by lia.
    + replace (L - (currentHour + S a)) with 0 by lia.
      replace (L - (currentHour + a)) with 0 by lia.
      rewrite !Nat.min_0_r. reflexivity.
Qed.

Lemma processedForecast_window :
  processedForecast format hourlyData currentHour =
  map (forecastPoint format hourlyData)
    (seq currentHour
         (Nat.min 8 (length (Hourly.time hourlyData) - currentHour))).
Proof.
  unfold processedForecast. rewrite forecast_loop. now rewrite Nat.add_0_r.
Qed.

Lemma processedForecast_length :
  length (processedForecast format hourlyData currentHour) =
  Nat.min 8 (length (Hourly.time hourlyData) - currentHour).
Proof.
  now rewrite processedForecast_window, length_map, length_seq.
Qed.

Lemma processedForecast_nth (i : nat) :
  i < length (processedForecast format hourlyData currentHour) ->
  nth_error (processedForecast format hourlyData currentHour) i =
  Some (forecastPoint format hourlyData (currentHour + i)).
Proof.
  rewrite processedForecast_length. intros Hi.
  rewrite processedForecast_window, nth_error_map.
  rewrite nth_error_nth' with (d := 0) by now rewrite length_seq.
  now rewrite seq_nth.
Qed.

End Forecast.

(* ================================================================== *)
(** * Numbers *)
(* ================================================================== *)

Lemma round_half_up_nearest (num den : Z) :
  (0 < den)%Z ->
  (2 * round_half_up num den * den - den <= 2 * num
   < 2 * round_half_up num den * den + den)%Z.
Proof.
  intros Hden. unfold round_half_up.
  pose proof (Z.div_mod (2 * num + den) (2 * den) ltac:(lia)) as Hdm.
  pose proof (Z.mod_pos_bound (2 * num + den) (2 * den) ltac:(lia)) as Hb.
  nia.
Qed.

(** ** Integers as binary64 floats *)

Section Binary64.

Local Open Scope Z_scope.

(** The number of binary digits of a positive integer. *)
Lemma digits2_pos_bounds (p : positive) :
  2 ^ (Zpos (digits2_pos p) - 1) <= Zpos p < 2 ^ Zpos (digits2_pos p).
Proof.
  induction p as [p IH | p IH |]; cbn [digits2_pos].
  - rewrite Pos2Z.inj_succ.
    replace (Z.succ (Zpos (digits2_pos p)) - 1)
      with (Z.succ (Zpos (digits2_pos p) - 1)) by lia.
    rewrite !Z.pow_succ_r by lia. lia.
  - rewrite Pos2Z.inj_succ.
    replace (Z.succ (Zpos (digits2_pos p)) - 1)
      with (Z.succ (Zpos (digits2_pos p) - 1)) by lia.
    rewrite !Z.pow_succ_r by lia. lia.
  - cbn. lia.
Qed.

(** Shifting a mantissa to the left. *)
Lemma iter_xO_value d p : Zpos (Pos.iter xO p d) = Zpos p * 2 ^ Zpos d.
Proof.
  induction d using Pos.peano_ind.
  - cbn. lia.
  - rewrite Pos.iter_succ, Pos2Z.inj_xO, IHd, Pos2Z.inj_succ, Z.pow_succ_r by lia. lia.
Qed.

Lemma iter_xO_digits d p : digits2_pos (Pos.iter xO p d) = (digits2_pos p + d)%positive.
Proof.
  induction d using Pos.peano_ind.
  - cbn. lia.
  - rewrite Pos.iter_succ. cbn [digits2_pos]. rewrite IHd. lia.
Qed.

(** An exact mantissa in canonical position is not rounded. *)
Lemma binary_round_aux_canonical (sx : bool) (q : positive) (e : Z) :
  fexp prec emax (Zpos (digits2_pos q) + e) = e ->
  e <= emax - prec ->
  binary_round_aux prec emax sx (Zpos q) e loc_Exact = S754_finite sx q e.
Proof.
  intros Hc He. unfold binary_round_aux, shr_fexp.
  cbn [Zdigits2 shr_record_of_loc]. rewrite Hc, Z.sub_diag.
  cbn [shr shr_m loc_of_shr_record round_nearest_even Zdigits2 shr_record_of_loc].
  rewrite Hc, Z.sub_diag. cbn [shr shr_m].
  destruct (Z.leb_spec e (emax - prec)); [reflexivity | lia].
Qed.

(** An integer of at most 53 bits is a float exactly. *)
Lemma binary_normalize_integer (p : positive) :
  Zpos (digits2_pos p) <= 53 ->
  exists m e,
    binary_normalize prec emax (Zpos p) 0 false = S754_finite false m e /\
    e <= 0 /\ Zpos m = Zpos p * 2 ^ (- e).
Proof.
  intros Hd. unfold binary_normalize, binary_round, shl_align.
  assert (Hf : fexp prec emax (Zpos (digits2_pos p) + 0) = Zpos (digits2_pos p) - 53).
  { unfold fexp, emin, prec, emax. lia. }
  rewrite Hf.
  destruct (Zpos (digits2_pos p) - 53 - 0) as [|k|k] eqn:Hk; try lia.
  - exists p, 0. rewrite binary_round_aux_canonical.
    + split; [reflexivity | lia].
    + rewrite Hf. lia.
    + unfold emax, prec. lia.
  - exists (Pos.iter xO p k), (Zpos (digits2_pos p) - 53).
    rewrite binary_round_aux_canonical.
    + split; [reflexivity |]. split; [lia |].
      rewrite iter_xO_value. f_equal. f_equal. lia.
    + rewrite iter_xO_digits. unfold fexp, emin, prec, emax. lia.
    + unfold emax, prec. lia.
Qed.

(** The mantissa of a binary64 float has at most 53 bits. *)
Lemma mantissa_bound (x : number) (s : bool) (m : positive) (e : Z) :
  Prim2SF x = S754_finite s m e -> Zpos m < 2 ^ 53.
Proof.
  intros Hx. pose proof (Prim2SF_valid x) as Hv. rewrite Hx in Hv.
  unfold valid_binary, bounded, canonical_mantissa in Hv.
  apply andb_prop in Hv as [Hc _]. apply Z.eqb_eq in Hc.
  unfold fexp, emin, prec, emax in Hc.
  assert (Hd : Zpos (digits2_pos m) <= 53) by lia.
  pose proof (digits2_pos_bounds m) as [_ Hm].
  eapply Z.lt_le_trans; [exact Hm |].
  apply Z.pow_le_mono_r; lia.
Qed.

Lemma digits_of_bounded (p : positive) :
  Zpos p < 2 ^ 53 -> Zpos (digits2_pos p) <= 53.
Proof.
  intros Hp. pose proof (digits2_pos_bounds p) as [Hm _].
  destruct (Z.le_gt_cases (Zpos (digits2_pos p)) 53) as [H | H]; [exact H |].
  exfalso.
  assert (2 ^ 53 <= 2 ^ (Zpos (digits2_pos p) - 1))
    by (apply Z.pow_le_mono_r; lia).
  lia.
Qed.

Lemma uint63_of_small (n : Z) :
  0 <= n < 2 ^ 53 -> Uint63.to_Z (Uint63.of_Z n) = n.
Proof.
  intros Hn. rewrite Uint63.of_Z_spec. apply Z.mod_small.
  change Uint63.wB with (2 ^ 63).
  assert (2 ^ 53 < 2 ^ 63) by (apply Z.pow_lt_mono_r; lia). lia.
Qed.

(** The float of an integer below [2^53] stands for that integer and has
    the sign it was given. *)
Lemma float_of_Z_fields (s : bool) (n : Z) :
  Z.abs n < 2 ^ 53 ->
  (if s then n <= 0 else 0 <= n) ->
  integer_of (float_of_Z s n) = Some n /\ sign_bit (float_of_Z s n) = s.
Proof.
  intros Hb Hs.
  assert (Hf : Prim2SF (PrimFloat.of_uint63 (Uint63.of_Z (Z.abs n))) =
               binary_normalize prec emax (Z.abs n) 0 false).
  { rewrite FloatAxioms.of_uint63_spec, uint63_of_small by lia. reflexivity. }
  assert (Hg : Prim2SF (float_of_Z s n) =
               (if s then SFopp else fun y => y)
                 (binary_normalize prec emax (Z.abs n) 0 false)).
  { unfold float_of_Z. cbv zeta. destruct s.
    - now rewrite FloatAxioms.opp_spec, Hf.
    - exact Hf. }
  unfold integer_of, sign_bit. rewrite Hg.
  destruct (Z.abs n) as [| p | p] eqn:Ha; [| | lia].
  - assert (n = 0) by lia. subst n. destruct s; split; reflexivity.
  - destruct (binary_normalize_integer p (digits_of_bounded p Hb))
      as [m [e [Hn [He Hm]]]].
    rewrite Hn.
    assert (Hpow : 0 < 2 ^ (- e)) by (apply Z.pow_pos_nonneg; lia).
    assert (Hval : (if s then Z.neg m else Z.pos m) = n * 2 ^ (- e)).
    { destruct s.
      - change (Z.neg m) with (- Z.pos m). rewrite Hm. nia.
      - rewrite Hm. nia. }
    assert (Hmod : Z.pos m mod 2 ^ (- e) = 0).
    { rewrite Hm. apply Z.mod_mul. lia. }
    destruct s; cbn [SFopp negb]; (split; [| reflexivity]);
      destruct (Z.leb_spec 0 e) as [H0 | H0].
    + assert (e = 0) by lia. subst e. rewrite Hval. f_equal. cbn. lia.
    + rewrite Hmod, Hval. cbn [Z.eqb]. f_equal. apply Z.div_mul. lia.
    + assert (e = 0) by lia. subst e. rewrite Hval. f_equal. cbn. lia.
    + rewrite Hmod, Hval. cbn [Z.eqb]. f_equal. apply Z.div_mul. lia.
Qed.

End Binary64.

(** [Math.round] gives the nearest integer, the tie going up, with the
    sign of its argument. *)
Lemma Math_round_nearest (x : number) : nearest_integer x (Math_round x).
Proof.
  unfold nearest_integer, Math_round.
  destruct (Prim2SF x) as [s | s | | s m e] eqn:Hx; try reflexivity.
  destruct (Z.ltb_spec e 0) as [He | He]; [| reflexivity].
  pose proof (mantissa_bound x s m e Hx) as Hm.
  assert (Hden : (2 <= 2 ^ (- e))%Z).
  { change 2%Z with (2 ^ 1)%Z at 1. apply Z.pow_le_mono_r; lia. }
  pose proof (round_half_up_nearest (if s then Z.neg m else Z.pos m)
                (2 ^ (- e))%Z ltac:(lia)) as Hr.
  set (n := round_half_up (if s then Z.neg m else Z.pos m) (2 ^ (- e))%Z) in *.
  exists n.
  assert (Hfields : integer_of (float_of_Z s n) = Some n /\
                    sign_bit (float_of_Z s n) = s).
  { apply float_of_Z_fields.
    - destruct s; [change (Z.neg m) with (- Z.pos m)%Z in Hr |]; nia.
    - destruct s; [change (Z.neg m) with (- Z.pos m)%Z in Hr |]; nia. }
  destruct Hfields as [Hi Hsg]. split; [exact Hi |]. split; [exact Hsg |].
  exact Hr.
Qed.

(** The order of binary64 around the thresholds 10 and 20. *)
Lemma not_lt_10_of_ge_10 (t : number) :
  (10 <=? t)%float = true -> (t <? 10)%float = false.
Proof.
  rewrite leb_spec, ltb_spec.
  change (Prim2SF 10) with (S754_finite false 5629499534213120 (-49)).
  unfold SFleb, SFltb, SFcompare.
  destruct (Prim2SF t) as [s | s | | s m e];
    try destruct s; try discriminate; auto.
  destruct (Z.compare_spec (-49) e), (Z.compare_spec e (-49));
    try lia; try discriminate; auto.
  rewrite <- (Pos.compare_cont_antisym _ _ Eq).
  destruct (Pos.compare_cont Eq m 5629499534213120);
    simpl; try discriminate; auto.
Qed.

Lemma not_lt_of_ge_20 (t : number) :
  (20 <=? t)%float = true ->
  (t <? 10)%float = false /\ (t <? 20)%float = false.
Proof.
  rewrite leb_spec, !ltb_spec.
  change (Prim2SF 20) with (S754_finite false 5629499534213120 (-48)).
  change (Prim2SF 10) with (S754_finite false 5629499534213120 (-49)).
  unfold SFleb, SFltb, SFcompare.
  destruct (Prim2SF t) as [s | s | | s m e];
    try destruct s; try discriminate; auto.
  destruct (Z.compare_spec (-48) e), (Z.compare_spec e (-49)),
    (Z.compare_spec e (-48)); try lia; try discriminate; auto.
  all: subst; try lia.
  all: rewrite <- (Pos.compare_cont_antisym _ _ Eq).
  all: destruct (Pos.compare_cont Eq m 5629499534213120);
    simpl; try discriminate; auto.
Qed.

(** [x === 0] is symmetric. *)
Lemma eqb_zero_sym (x : number) :
  (x =? 0)%float = true -> (0 =? x)%float = true.
Proof.
  rewrite !eqb_spec.
  change (Prim2SF 0) with (S754_zero false).
  unfold SFeqb, SFcompare.
  destruct (Prim2SF x) as [s | s | | s m e]; try destruct s; auto.
Qed.

Lemma eqb_refl_of_not_nan (x : number) :
  PrimFloat.is_nan x = false -> (x =? x)%float = true.
Proof.
  unfold PrimFloat.is_nan. now destruct (x =? x)%float.
Qed.

(* ================================================================== *)
(** * Running the pipeline *)
(* ================================================================== *)

#[local] Arguments processedForecast : simpl never.
#[local] Arguments transformedData : simpl never.
#[local] Arguments displayName : simpl never.

(** The Geocoder stage, by the answer of the lookup. *)
Lemma geocode_run (env : Env) (city : jsstring) (w : World) :
  geocode env city w =
  if isWellFormed city then
    (if lookup_fails (geocoding_api env city)
     then inl (lookup_error (geocoding_api env city))
     else match resolved_place (geocoding_api env city) with
          | Some best => inr best
          | None => inl (TypeError (lit "Cannot destructure 'bestMatch'"))
          end,
     add_request (GeocodingRequest city) w)
  else (inl malformed_URI, w).
Proof.
  unfold geocode, encodeURIComponent, bind, fetch, throw, ret, add_request.
  destruct (isWellFormed city); [| reflexivity].
  destruct (geocoding_api env city) as [reason | ok [res]]; [reflexivity |].
  destruct ok; [| reflexivity].
  cbn [negb lookup_fails resolved_place lookup_error results orb].
  destruct res as [candidates |]; [| reflexivity].
  destruct (length candidates =? 0); [reflexivity |].
  destruct (bestMatch candidates); reflexivity.
Qed.

(** A lookup that does not fail resolves to a place, and conversely. *)
Lemma resolved_place_of_lookup (o : FetchOutcome GeoData) :
  lookup_fails o = false -> exists best, resolved_place o = Some best.
Proof.
  destruct o as [reason | ok [res]]; [discriminate |].
  destruct ok; [| discriminate]. destruct res as [candidates |]; [| discriminate].
  cbn. intros Hlen. apply Nat.eqb_neq in Hlen.
  destruct (bestMatch_nonempty candidates) as [best [Hbest _]].
  - intros ->. now apply Hlen.
  - now exists best.
Qed.

Lemma lookup_ok_of_place (o : FetchOutcome GeoData) (best : Candidate) :
  resolved_place o = Some best -> lookup_fails o = false.
Proof.
  destruct o as [reason | ok [res]]; [discriminate |].
  destruct ok; [| discriminate]. destruct res as [candidates |]; [| discriminate].
  cbn. destruct candidates; [discriminate | reflexivity].
Qed.

(** The Weather Fetcher stage, by the answer of the retrieval. *)
Lemma retrieve_run (env : Env) (best : Candidate) (w : World) :
  let retrieval := forecast_api env (latitude best) (longitude best) in
  retrieve env best w =
  (match retrieval with
   | Resolved true weatherData => inr weatherData
   | _ => inl (retrieval_error retrieval)
   end,
   add_request (ForecastRequest (latitude best) (longitude best)) w).
Proof.
  cbv zeta. unfold retrieve, bind, fetch, throw, ret, add_request.
  destruct (forecast_api env (latitude best) (longitude best)) as [reason | ok wr];
    [reflexivity |].
  destruct ok; reflexivity.
Qed.

(** The rest of the [try] block, by the blocks of the response: the view is
    written before the hourly block is read. *)
Lemma display_run (env : Env) (best : Candidate) (wr : WeatherResponse) (w : World) :
  display env best wr w =
  match current wr, hourly wr with
  | None, _ => (inl (TypeError (lit "Cannot read properties of undefined (reading 'weather_code')")), w)
  | Some cur, None =>
      (inl (TypeError (lit "Cannot read properties of undefined (reading 'time')")),
       with_app (view_shown best cur) w)
  | Some cur, Some hourlyData =>
      (inr tt, with_app (shown env best cur hourlyData) w)
  end.
Proof.
  unfold display, read, bind, throw, ret, setWeatherData, setLocation, setForecast.
  destruct wr as [[cur |] [hourlyData |]]; destruct w as [[] ? ?]; reflexivity.
Qed.

(** The [try] block, by the outcome of its stages. *)
Lemma fetchWeather_try_run (env : Env) (city : jsstring) (w : World) :
  fetchWeather_try env city w =
  match geocode env city w with
  | (inl e, w1) => (inl e, w1)
  | (inr best, w1) =>
      match retrieve env best w1 with
      | (inl e, w2) => (inl e, w2)
      | (inr wr, w2) => display env best wr w2
      end
  end.
Proof.
  unfold fetchWeather_try, bind at 1.
  destruct (geocode env city w) as [[e | best] w1]; [reflexivity |].
  unfold bind.
  destruct (retrieve env best w1) as [[e | wr] w2]; reflexivity.
Qed.

(** The failure kinds, by the answers of the services. *)
Lemma NotFoundError_iff (env : Env) (city : jsstring) (w : World) (e : exn) :
  NotFoundError env city w e <->
  (isWellFormed city = false /\ e = malformed_URI) \/
  (isWellFormed city = true /\
   lookup_fails (geocoding_api env city) = true /\
   e = lookup_error (geocoding_api env city)).
Proof.
  unfold NotFoundError. rewrite geocode_run.
  destruct (isWellFormed city); cbn [fst].
  - destruct (lookup_fails (geocoding_api env city)) eqn:Hlook.
    + split.
      * intros [= <-]. right. auto.
      * intros [[H _] | [_ [_ ->]]]; [discriminate H | reflexivity].
    + destruct (resolved_place_of_lookup _ Hlook) as [best ->].
      split; [discriminate |].
      intros [[H _] | [_ [H _]]]; discriminate H.
  - split.
    + intros [= <-]. left. auto.
    + intros [[_ ->] | [H _]]; [reflexivity | discriminate H].
Qed.

Lemma FetchError_iff (env : Env) (city : jsstring) (w : World) (e : exn) :
  FetchError env city w e <->
  isWellFormed city = true /\
  exists best,
    resolved_place (geocoding_api env city) = Some best /\
    retrieval_fails (forecast_api env (latitude best) (longitude best)) = true /\
    e = retrieval_error (forecast_api env (latitude best) (longitude best)).
Proof.
  unfold FetchError. split.
  - intros [best [w1 [Hgeo Hret]]]. rewrite geocode_run in Hgeo.
    destruct (isWellFormed city); [| discriminate Hgeo].
    split; [reflexivity |].
    destruct (lookup_fails (geocoding_api env city)); [discriminate Hgeo |].
    destruct (resolved_place (geocoding_api env city)) as [b |];
      [| discriminate Hgeo].
    injection Hgeo as -> <-. exists best. split; [reflexivity |].
    rewrite retrieve_run in Hret. cbv zeta in Hret. cbn [fst] in Hret.
    destruct (forecast_api env (latitude best) (longitude best)) as [r | ok wr].
    + injection Hret as <-. auto.
    + destruct ok; [discriminate Hret |]. injection Hret as <-. auto.
  - intros [Hwf [best [Hplace [Hfail ->]]]].
    exists best, (add_request (GeocodingRequest city) w). split.
    + now rewrite geocode_run, Hwf, (lookup_ok_of_place _ _ Hplace), Hplace.
    + rewrite retrieve_run. cbv zeta. cbn [fst].
      destruct (forecast_api env (latitude best) (longitude best)) as [r | ok wr];
        [reflexivity |].
      destruct ok; [discriminate Hfail | reflexivity].
Qed.

(** A failure of one of the two kinds is a failure of the [try] block that
    has written nothing but its requests: one for NotFoundError, two for
    FetchError. *)
Lemma NotFoundError_run (env : Env) (city : jsstring) (w : World) (e : exn) :
  NotFoundError env city w e ->
  fetchWeather_try env city w =
  (inl e, if isWellFormed city then add_request (GeocodingRequest city) w else w).
Proof.
  intros H. apply NotFoundError_iff in H.
  rewrite fetchWeather_try_run, geocode_run.
  destruct H as [[Hwf ->] | [Hwf [Hlook ->]]]; rewrite Hwf; [reflexivity |].
  now rewrite Hlook.
Qed.

Lemma FetchError_run (env : Env) (city : jsstring) (w : World) (e : exn) :
  FetchError env city w e ->
  exists best,
    resolved_place (geocoding_api env city) = Some best /\
    fetchWeather_try env city w =
    (inl e, add_request (ForecastRequest (latitude best) (longitude best))
              (add_request (GeocodingRequest city) w)).
Proof.
  intros H. apply FetchError_iff in H.
  destruct H as [Hwf [best [Hplace [Hfail ->]]]].
  exists best. split; [exact Hplace |].
  rewrite fetchWeather_try_run, geocode_run, Hwf,
    (lookup_ok_of_place _ _ Hplace), Hplace.
  rewrite retrieve_run. cbv zeta.
  destruct (forecast_api env (latitude best) (longitude best)) as [r | ok wr];
    [reflexivity |].
  destruct ok; [discriminate Hfail | reflexivity].
Qed.

(** The [try] block throws in exactly three ways. *)
Lemma try_fails_iff (env : Env) (city : jsstring) (w : World) (e : exn) :
  fst (fetchWeather_try env city w) = inl e <->
  NotFoundError env city w e \/ FetchError env city w e \/
  MalformedResponse env city w e.
Proof.
  unfold NotFoundError, FetchError, MalformedResponse.
  rewrite fetchWeather_try_run.
  destruct (geocode env city w) as [[e1 | best] w1].
  - cbn [fst]. split.
    + intros [= ->]. now left.
    + intros [[= ->] | [[b [w2 [H _]]] | [b [w2 [wr [w3 [H _]]]]]]];
        [reflexivity | discriminate H | discriminate H].
  - destruct (retrieve env best w1) as [[e2 | wr] w2] eqn:Hret.
    + cbn [fst]. split.
      * intros [= ->]. right. left. exists best, w1. now rewrite Hret.
      * intros [H | [[b [w3 [Hb H]]] | [b [w3 [wr [w4 [Hb [H _]]]]]]]].
        -- discriminate H.
        -- injection Hb as <- <-. rewrite Hret in H. now injection H as ->.
        -- injection Hb as <- <-. rewrite Hret in H. discriminate H.
    + split.
      * intros H. right. right. exists best, w1, wr, w2. auto.
      * intros [H | [[b [w3 [Hb H]]] | [b [w3 [wr' [w4 [Hb [H Hd]]]]]]]].
        -- discriminate H.
        -- injection Hb as <- <-. rewrite Hret in H. discriminate H.
        -- injection Hb as <- <-. rewrite Hret in H. injection H as <- <-.
           exact Hd.
Qed.

Lemma responds_place (env : Env) (city : jsstring) (best : Candidate)
    (cur : Current.t) (hourlyData : Hourly.t) :
  responds env city best cur hourlyData ->
  lookup_fails (geocoding_api env city) = false /\
  resolved_place (geocoding_api env city) = Some best.
Proof.
  intros [_ [candidates [Hgeo [Hbest _]]]]. rewrite Hgeo. cbn.
  split; [| exact Hbest].
  destruct candidates; [discriminate Hbest | reflexivity].
Qed.

(** With both answers in and both blocks present, the [try] block returns
    normally. *)
Lemma fetchWeather_try_success (env : Env) (city : jsstring) (best : Candidate)
    (cur : Current.t) (hourlyData : Hourly.t) (w : World) :
  responds env city best cur hourlyData ->
  fetchWeather_try env city w =
  (inr tt,
   with_app (shown env best cur hourlyData)
     (add_request (ForecastRequest (latitude best) (longitude best))
        (add_request (GeocodingRequest city) w))).
Proof.
  intros Hr. destruct (responds_place _ _ _ _ _ Hr) as [Hok Hplace].
  destruct Hr as [Hwf [candidates [Hgeo [Hbest Hwr]]]].
  rewrite fetchWeather_try_run, geocode_run, Hwf, Hok, Hplace.
  rewrite retrieve_run. cbv zeta. rewrite Hwr. now rewrite display_run.
Qed.

(** The world in which the [try] block of [fetchWeather] starts. *)
Lemma fetchWeather_unfold (env : Env) (city : jsstring) (w : World) :
  fetchWeather env city w =
  try_catch_finally
    (fetchWeather_try env city)
    (fun err => setError user_message ;;; console_error err)
    (setLoading false)
    (with_app (loading_error true []) w).
Proof.
  destruct w as [[] ? ?]. reflexivity.
Qed.

(** A successful invocation replaces the view, the forecast and the label. *)
Lemma fetchWeather_success (env : Env) (city : jsstring) (best : Candidate)
    (cur : Current.t) (hourlyData : Hourly.t) (w : World) :
  responds env city best cur hourlyData ->
  fetchWeather env city w =
  (inr tt,
   {| app := loading_error false [] (shown env best cur hourlyData (app w));
      console := console w;
      requests := requests w ++ [GeocodingRequest city;
                                 ForecastRequest (latitude best) (longitude best)] |}).
Proof.
  intros Hr. rewrite fetchWeather_unfold. unfold try_catch_finally.
  rewrite (fetchWeather_try_success _ _ _ _ _ _ Hr).
  destruct w as [[] ? ?].
  unfold with_app, add_request, loading_error, shown. cbn.
  now rewrite <- app_assoc.
Qed.

(** An invocation that fails in one of the two stages keeps them and shows
    the message. *)
Lemma fetchWeather_failure (env : Env) (city : jsstring) (w : World) (e : exn) :
  NotFoundError env city w e \/ FetchError env city w e ->
  fst (fetchWeather env city w) = inr tt /\
  app (snd (fetchWeather env city w)) = loading_error false user_message (app w) /\
  console (snd (fetchWeather env city w)) = console w ++ [e].
Proof.
  intros Hfail. rewrite fetchWeather_unfold. unfold try_catch_finally.
  set (w0 := with_app (loading_error true []) w).
  assert (Hrun : exists reqs,
             fetchWeather_try env city w0 =
             (inl e, {| app := app w0; console := console w0; requests := reqs |})).
  { destruct Hfail as [H | H].
    - apply NotFoundError_iff in H. apply (NotFoundError_iff env city w0) in H.
      rewrite (NotFoundError_run _ _ _ _ H).
      destruct (isWellFormed city); [now eexists |].
      exists (requests w0). now destruct w0.
    - apply FetchError_iff in H. apply (FetchError_iff env city w0) in H.
      destruct (FetchError_run _ _ _ _ H) as [best [_ ->]]. now eexists. }
  destruct Hrun as [reqs ->].
  unfold bind, setError, console_error, setLoading, with_app. cbn.
  destruct w as [[] ? ?]. cbn. auto.
Qed.

(* ================================================================== *)
(** * Wind speed *)
(* ================================================================== *)

(** C4. The wind speed of the view is the raw speed in km/h divided by 3.6,
    the quotient of the two binary64 numbers as it is, with no rounding to an
    integer: in the transformed data, and in the state a successful
    invocation leaves. *)
Theorem wind_speed_conversion (env : Env) (city : jsstring) (best : Candidate)
    (cur : Current.t) (hourlyData : Hourly.t) (w : World) :
  responds env city best cur hourlyData ->
  Wind.speed (WeatherData.wind (transformedData best cur)) =
    (Current.wind_speed_10m cur / 3.6)%float /\
  exists wd,
    weatherData (app (snd (fetchWeather env city w))) = Some wd /\
    Wind.speed (WeatherData.wind wd) = (Current.wind_speed_10m cur / 3.6)%float.
Proof.
  intros Hr. split; [reflexivity |].
  rewrite (fetchWeather_success _ _ _ _ _ _ Hr). cbn.
  eexists. split; reflexivity.
Qed.

Lemma online_responds (city : jsstring) :
  isWellFormed city = true ->
  responds online city paris_france scenario_B two_hours.
Proof.
  intros Hwf. split; [exact Hwf |]. exists paris_candidates. repeat split.
Qed.

(** Scenario B: 40 km/h are 11.11... m/s, not 11. *)
Lemma wind_speed_scenario_B :
  responds online (lit "Paris") paris_france scenario_B two_hours /\
  exists wd,
    weatherData (app (snd (fetchWeather online (lit "Paris") showing_mild_day)))
      = Some wd /\
    Wind.speed (WeatherData.wind wd) = (40 / 3.6)%float.
Proof.
  split; [now apply online_responds |].
  exact (proj2 (wind_speed_conversion online (lit "Paris") paris_france
                  scenario_B two_hours showing_mild_day
                  (online_responds (lit "Paris") eq_refl))).
Defined.

Example wind_speed_40_kmh : (40 / 3.6)%float = 11.111111111111111%float.
Proof. reflexivity. Qed.

(* ================================================================== *)
(** * Forecast points *)
(* ================================================================== *)

(** C5. For an hourly series of length L and a current hour h, the forecast
    has min(8, max(0, L - h)) points; the point at position i is made of the
    samples at index h + i of the hourly arrays, so the points are the
    consecutive samples from h on, in that order; an empty series gives an
    empty forecast; and once the city is in the URL and both services have
    answered, the [try] block returns normally, whatever the series. *)
Theorem forecast_window (format : jsstring -> jsstring)
    (hourlyData : Hourly.t) (currentHour : nat) :
  let L := length (Hourly.time hourlyData) in
  let points := processedForecast format hourlyData currentHour in
  Z.of_nat (length points) =
    Z.min 8 (Z.max 0 (Z.of_nat L - Z.of_nat currentHour)) /\
  (forall i, i < length points ->
     exists p,
       nth_error points i = Some p /\
       ForecastPoint.time p =
         format (nth (currentHour + i) (Hourly.time hourlyData) []) /\
       ForecastPoint.temp p =
         Math_round (ToNumber (nth (currentHour + i)
                                   (Hourly.temperature_2m hourlyData) Undefined)) /\
       ForecastPoint.feels_like p =
         Math_round (ToNumber (nth (currentHour + i)
                                   (Hourly.apparent_temperature hourlyData) Undefined)) /\
       ForecastPoint.humidity p =
         nth (currentHour + i) (Hourly.relative_humidity_2m hourlyData) Undefined /\
       ForecastPoint.rain p =
         or_else (nth (currentHour + i)
                      (Hourly.precipitation_probability hourlyData) Undefined)
                 (Num 0%float)) /\
  (L = 0 -> points = []) /\
  (forall env city best cur w,
     responds env city best cur hourlyData ->
     fst (fetchWeather_try env city w) = inr tt /\
     forecast (app (snd (fetchWeather_try env city w))) =
       processedForecast (toLocaleTimeString env) hourlyData (getHours env)).
Proof.
  cbv zeta. split; [| split; [| split]].
  - rewrite processedForecast_length. lia.
  - intros i Hi. rewrite (processedForecast_nth _ _ _ _ Hi).
    eexists. split; [reflexivity |]. repeat split.
  - intros HL. rewrite processedForecast_window, HL. reflexivity.
  - intros env city best cur w Hr.
    now rewrite (fetchWeather_try_success _ _ _ _ _ _ Hr).
Qed.

(** Two samples: the series [two_hours] read at 1 h has one point, the
    second hour with its own time stamp, humidity and rain probability; and
    scenario C, zero hourly entries, gives no point (here at 13 h). *)
Lemma forecast_window_samples :
  (exists p,
     processedForecast (fun s => s) two_hours 1 = [p] /\
     ForecastPoint.time p = lit "2024-05-01T01:00" /\
     ForecastPoint.temp p = 20%float /\
     ForecastPoint.feels_like p = 0%float /\
     ForecastPoint.humidity p = Num 75%float /\
     ForecastPoint.rain p = Num 35%float) /\
  (length (Hourly.time no_hours) = 0 /\
   processedForecast (fun s => s) no_hours 13 = []).
Proof.
  split.
  - assert (Hlt : 0 < length (processedForecast (fun s => s) two_hours 1))
      by (vm_compute; constructor).
    destruct (proj1 (proj2 (forecast_window (fun s => s) two_hours 1)) 0 Hlt)
      as [p [Hp [Ht [Hte [Hf [Hh Hr]]]]]].
    exists p. split; [| repeat split; assumption].
    assert (Hlen : length (processedForecast (fun s => s) two_hours 1) = 1)
      by reflexivity.
    destruct (processedForecast (fun s => s) two_hours 1) as [| q [| q' rest]];
      try discriminate Hlen.
    cbn in Hp. now injection Hp as ->.
  - split; [reflexivity |].
    exact (proj1 (proj2 (proj2 (forecast_window (fun s => s) no_hours 13)))
             eq_refl).
Defined.

(** A 48-hour series at 23 h gives the eight hours 23 to 30; at 44 h of
    data left, the four hours 44 to 47. *)
Example forecast_lengths (format : jsstring -> jsstring) (hourlyData : Hourly.t) :
  length (Hourly.time hourlyData) = 48 ->
  length (processedForecast format hourlyData 23) = 8 /\
  length (processedForecast format hourlyData 44) = 4 /\
  length (processedForecast format hourlyData 50) = 0.
Proof.
  intros HL. rewrite !processedForecast_length, HL. repeat split.
Qed.

Example forecast_late_evening :
  map ForecastPoint.time (processedForecast (fun s => s) two_hours 1) =
  [lit "2024-05-01T01:00"].
Proof. reflexivity. Qed.

(** C6. In every forecast point, the temperature and the feels-like value
    are [Math.round] of the hourly values at the point's index: the nearest
    integer, the tie going up.  Humidity is the hourly value as it is.  The
    rain probability is the hourly value as it is when that is a number other
    than zero, equal to it as a number in any case, and 0 when the value is
    missing ([null], or no entry at that index). *)
Theorem forecast_point_fields (format : jsstring -> jsstring)
    (hourlyData : Hourly.t) (currentHour i : nat) (p : ForecastPoint.t) :
  nth_error (processedForecast format hourlyData currentHour) i = Some p ->
  let hour := currentHour + i in
  let t := ToNumber (index (Hourly.temperature_2m hourlyData) hour) in
  let a := ToNumber (index (Hourly.apparent_temperature hourlyData) hour) in
  let r := index (Hourly.precipitation_probability hourlyData) hour in
  (ForecastPoint.temp p = Math_round t /\ nearest_integer t (ForecastPoint.temp p)) /\
  (ForecastPoint.feels_like p = Math_round a /\
   nearest_integer a (ForecastPoint.feels_like p)) /\
  ForecastPoint.humidity p = index (Hourly.relative_humidity_2m hourlyData) hour /\
  (r = Undefined \/ r = Null -> ForecastPoint.rain p = Num 0%float) /\
  (forall x, r = Num x -> (x =? 0)%float = false -> PrimFloat.is_nan x = false ->
             ForecastPoint.rain p = Num x) /\
  (forall x, r = Num x -> PrimFloat.is_nan x = false ->
             exists y, ForecastPoint.rain p = Num y /\ (y =? x)%float = true).
Proof.
  intros Hp. cbv zeta.
  assert (Hi : i < length (processedForecast format hourlyData currentHour))
    by (apply nth_error_Some; congruence).
  rewrite (processedForecast_nth _ _ _ _ Hi) in Hp. injection Hp as <-.
  cbn [forecastPoint ForecastPoint.temp ForecastPoint.feels_like
       ForecastPoint.humidity ForecastPoint.rain].
  repeat split; try apply Math_round_nearest.
  - intros [-> | ->]; reflexivity.
  - intros x -> Hz Hn. unfold or_else, ToBoolean. now rewrite Hz, Hn.
  - intros x -> Hn. unfold or_else, ToBoolean. rewrite Hn, orb_false_r.
    destruct (x =? 0)%float eqn:Hz; cbn [negb].
    + exists 0%float. split; [reflexivity | now apply eqb_zero_sym].
    + exists x. split; [reflexivity | now apply eqb_refl_of_not_nan].
Qed.

(** Reads the IEEE fields of the literal [x] in [H]. *)
Ltac read_float x H :=
  let v := eval vm_compute in (Prim2SF x) in
  change (Prim2SF x) with v in H;
  cbv beta iota delta [Z.ltb Z.compare] in H.

(** The second point of [two_hours]: 20.4 rounds to 20, the missing
    feels-like value [null] to 0, humidity 75 and rain 35 pass through.  The
    points of [half_degrees]: 2.5 rounds to 3 and -7.5 to -7; -2.5 rounds to
    -2, the only integer within a half of it, and 0.5 to 1; -0.3 and -0.5
    round to the zero with the sign bit set. *)
Lemma forecast_point_samples :
  (nth_error (processedForecast (fun s => s) two_hours 0) 1 =
     Some (forecastPoint (fun s => s) two_hours 1) /\
   ForecastPoint.temp (forecastPoint (fun s => s) two_hours 1) = 20%float /\
   ForecastPoint.feels_like (forecastPoint (fun s => s) two_hours 1) = 0%float /\
   ForecastPoint.humidity (forecastPoint (fun s => s) two_hours 1) = Num 75%float /\
   ForecastPoint.rain (forecastPoint (fun s => s) two_hours 1) = Num 35%float) /\
  (nth_error (processedForecast (fun s => s) half_degrees 0) 0 =
     Some (forecastPoint (fun s => s) half_degrees 0) /\
   ForecastPoint.temp (forecastPoint (fun s => s) half_degrees 0) = 3%float /\
   ForecastPoint.feels_like (forecastPoint (fun s => s) half_degrees 0) =
     (-7)%float) /\
  (nth_error (processedForecast (fun s => s) half_degrees 0) 1 =
     Some (forecastPoint (fun s => s) half_degrees 1) /\
   ForecastPoint.temp (forecastPoint (fun s => s) half_degrees 1) = (-2)%float /\
   integer_of (ForecastPoint.temp (forecastPoint (fun s => s) half_degrees 1)) =
     Some (-2)%Z /\
   ForecastPoint.feels_like (forecastPoint (fun s => s) half_degrees 1) =
     1%float) /\
  (nth_error (processedForecast (fun s => s) half_degrees 0) 2 =
     Some (forecastPoint (fun s => s) half_degrees 2) /\
   ForecastPoint.temp (forecastPoint (fun s => s) half_degrees 2) = (-0)%float /\
   sign_bit (ForecastPoint.temp (forecastPoint (fun s => s) half_degrees 2)) =
     true /\
   integer_of (ForecastPoint.feels_like (forecastPoint (fun s => s) half_degrees 2)) =
     Some 0%Z /\
   ForecastPoint.rain (forecastPoint (fun s => s) half_degrees 2) = Num 0%float).
Proof.
  split; [| split; [| split]].
  - assert (H : nth_error (processedForecast (fun s => s) two_hours 0) 1 =
                Some (forecastPoint (fun s => s) two_hours 1)) by reflexivity.
    pose proof (forecast_point_fields (fun s => s) two_hours 0 1 _ H) as F.
    cbv zeta in F. destruct F as [[Ft _] [[Fa _] [Fh [_ [Fr _]]]]].
    split; [exact H |]. split; [exact Ft |]. split; [exact Fa |].
    split; [exact Fh |]. exact (Fr 35%float eq_refl eq_refl eq_refl).
  - assert (H : nth_error (processedForecast (fun s => s) half_degrees 0) 0 =
                Some (forecastPoint (fun s => s) half_degrees 0)) by reflexivity.
    pose proof (forecast_point_fields (fun s => s) half_degrees 0 0 _ H) as F.
    cbv zeta in F. destruct F as [[Ft _] [[Fa _] _]].
    split; [exact H |]. split; [exact Ft | exact Fa].
  - assert (H : nth_error (processedForecast (fun s => s) half_degrees 0) 1 =
                Some (forecastPoint (fun s => s) half_degrees 1)) by reflexivity.
    pose proof (forecast_point_fields (fun s => s) half_degrees 0 1 _ H) as F.
    cbv zeta in F. destruct F as [[Ft Fn] [[Fa _] _]].
    split; [exact H |]. split; [exact Ft |]. split; [| exact Fa].
    change (ToNumber (index (Hourly.temperature_2m half_degrees) (0 + 1)))
      with (-2.5)%float in Fn.
    unfold nearest_integer in Fn. read_float (-2.5)%float Fn.
    destruct Fn as [n [Hn [_ Hb]]]. rewrite Hn. f_equal. cbv zeta in Hb. lia.
  - assert (H : nth_error (processedForecast (fun s => s) half_degrees 0) 2 =
                Some (forecastPoint (fun s => s) half_degrees 2)) by reflexivity.
    pose proof (forecast_point_fields (fun s => s) half_degrees 0 2 _ H) as F.
    cbv zeta in F. destruct F as [[Ft Fn] [[_ Fan] [_ [Fr _]]]].
    split; [exact H |]. split; [exact Ft |]. split; [| split].
    + change (ToNumber (index (Hourly.temperature_2m half_degrees) (0 + 2)))
        with (-0.3)%float in Fn.
      unfold nearest_integer in Fn. read_float (-0.3)%float Fn.
      destruct Fn as [n [_ [Hs _]]]. exact Hs.
    + change (ToNumber (index (Hourly.apparent_temperature half_degrees) (0 + 2)))
        with (-0.5)%float in Fan.
      unfold nearest_integer in Fan. read_float (-0.5)%float Fan.
      destruct Fan as [n [Hn [_ Hb]]]. rewrite Hn. f_equal. cbv zeta in Hb. lia.
    + apply Fr. now right.
Defined.

(** A missing precipitation probability: the first hour of [two_hours]. *)
Example forecast_point_missing_rain :
  ForecastPoint.rain (forecastPoint (fun s => s) two_hours 0) = Num 0%float.
Proof. reflexivity. Qed.

(* ================================================================== *)
(** * Recommendations *)
(* ================================================================== *)

(** The umbrella test [condition.includes('rain')] holds for the category
    Rain only. *)
Lemma umbrella_test (c : Condition) :
  includes (toLowerCase (Condition_string c)) (lit "rain") = Condition_eqb c Rain.
Proof.
  destruct c; reflexivity.
Qed.

(** The three independent tests of [getRecommendations], case by case. *)
Ltac conditional_advisories :=
  destruct (Condition_eqb _ _), (70 <? _)%float, (10 <? _)%float.

(** C7, as the specification states it, fails: a warm, dry, calm day with
    moderate humidity gets the temperature advisory alone, one string and
    not two. *)
Lemma one_recommendation :
  ~ (forall wd : WeatherData.t,
       2 <= length (getRecommendations (Some wd)) <= 4).
Proof.
  intros H. specialize (H mild_day). vm_compute in H. lia.
Qed.

(** C7, amended. For every view the generator emits between 1 and 4
    advisories in a fixed order: exactly one temperature advisory (cold
    weather below 10, light jacket from 10 to below 20, fair weather from 20
    on), then the umbrella advisory exactly when the category is Rain, then
    the hydration advisory exactly when humidity is above 70, then the wind
    advisory exactly when the wind speed, in m/s, is above 10. *)
Theorem recommendations_order (wd : WeatherData.t) :
  let temp := Main.temp (WeatherData.main wd) in
  let humidity := Main.humidity (WeatherData.main wd) in
  let speed := Wind.speed (WeatherData.wind wd) in
  let category := Weather.main (WeatherData.weather_0 wd) in
  exists band,
    getRecommendations (Some wd) =
      [band]
      ++ (if Condition_eqb category Rain then [advice_umbrella] else [])
      ++ (if (70 <? humidity)%float then [advice_hydrated] else [])
      ++ (if (10 <? speed)%float then [advice_windy] else []) /\
    ((temp <? 10)%float = true -> band = advice_warm_jacket) /\
    ((10 <=? temp)%float = true -> (temp <? 20)%float = true ->
     band = advice_light_jacket) /\
    ((20 <=? temp)%float = true -> band = advice_outdoor) /\
    In band [advice_warm_jacket; advice_light_jacket; advice_outdoor] /\
    1 <= length (getRecommendations (Some wd)) <= 4.
Proof.
  cbv zeta. unfold getRecommendations, push_if, gtb. rewrite umbrella_test.
  set (temp := Main.temp (WeatherData.main wd)).
  destruct (temp <? 10)%float eqn:H10; [| destruct (temp <? 20)%float eqn:H20].
  - exists advice_warm_jacket. repeat split.
    + conditional_advisories; reflexivity.
    + intros Hge _. apply not_lt_10_of_ge_10 in Hge. congruence.
    + intros Hge. apply not_lt_of_ge_20 in Hge. destruct Hge; congruence.
    + simpl; auto.
    + conditional_advisories; simpl; lia.
    + conditional_advisories; simpl; lia.
  - exists advice_light_jacket. repeat split.
    + conditional_advisories; reflexivity.
    + discriminate.
    + intros Hge. apply not_lt_of_ge_20 in Hge. destruct Hge; congruence.
    + simpl; auto.
    + conditional_advisories; simpl; lia.
    + conditional_advisories; simpl; lia.
  - exists advice_outdoor. repeat split.
    + conditional_advisories; reflexivity.
    + discriminate.
    + discriminate.
    + simpl; auto.
    + conditional_advisories; simpl; lia.
    + conditional_advisories; simpl; lia.
Qed.

(** Scenario B: rain, humidity 80 and 40 km/h of wind at 15.3 degrees give
    all four advisories, the wind advisory included. *)
Lemma recommendations_scenario_B :
  exists band,
    getRecommendations (Some (transformedData paris_france scenario_B)) =
      [band; advice_umbrella; advice_hydrated; advice_windy] /\
    band = advice_light_jacket.
Proof.
  destruct (recommendations_order (transformedData paris_france scenario_B))
    as [band [Heq [_ [Hlight _]]]].
  exists band. split; [exact Heq | apply Hlight; reflexivity].
Defined.

(** The wind threshold is in m/s: 30 km/h are above 10 as km/h and below 10
    as m/s, and give no wind advisory. *)
Example recommendations_30_kmh :
  (10 <? 30 / 3.6)%float = false.
Proof. reflexivity. Qed.

(* ================================================================== *)
(** * Failures *)
(* ================================================================== *)

(** C8, as the specification states it, fails: a city with a lone surrogate
    cannot be put into the URL, [encodeURIComponent] throws, and the
    invocation fails in the Geocoder stage although the lookup, which is
    never called, would return candidates. *)
Lemma lone_surrogate_is_not_found :
  ~ (forall env city w,
       (exists e, NotFoundError env city w e) <->
       lookup_fails (geocoding_api env city) = true).
Proof.
  intros H.
  destruct (H online [55296%N] showing_mild_day) as [Hlook _].
  assert (Hfail : exists e, NotFoundError online [55296%N] showing_mild_day e)
    by (exists malformed_URI; reflexivity).
  apply Hlook in Hfail. discriminate Hfail.
Qed.

(** C8, amended. An invocation fails with NotFoundError exactly when the
    city cannot be encoded into the URL (it has a lone surrogate), or the
    lookup returns zero candidates, or the lookup call fails (a status that
    is not a success, or a transport error); it fails with FetchError exactly
    when the city is encoded, the lookup resolved a place and the retrieval
    for it returns a status that is not a success or hits a transport error.
    Either way the [try] block throws: the [URIError] of the encoding, the
    rejection of the transport, or the [Error] of the status check.  Each
    failure is raised on the one attempt: no request was sent when the
    encoding failed; otherwise the geocoding request alone, or the geocoding
    request and then the weather request, once each. *)
Theorem failure_kinds (env : Env) (city : jsstring) (w : World) :
  let lookup := geocoding_api env city in
  let retrieval := fun best => forecast_api env (latitude best) (longitude best) in
  ((exists e, NotFoundError env city w e) <->
   isWellFormed city = false \/ lookup_fails lookup = true) /\
  ((exists e, FetchError env city w e) <->
   isWellFormed city = true /\
   exists best, resolved_place lookup = Some best /\
                retrieval_fails (retrieval best) = true) /\
  (forall e, NotFoundError env city w e ->
     e = (if isWellFormed city then lookup_error lookup else malformed_URI) /\
     fst (fetchWeather_try env city w) = inl e /\
     requests (snd (fetchWeather_try env city w)) =
       requests w ++ (if isWellFormed city then [GeocodingRequest city] else [])) /\
  (forall e, FetchError env city w e ->
     exists best,
       resolved_place lookup = Some best /\
       e = retrieval_error (retrieval best) /\
       fst (fetchWeather_try env city w) = inl e /\
       requests (snd (fetchWeather_try env city w)) =
         requests w ++ [GeocodingRequest city;
                        ForecastRequest (latitude best) (longitude best)]).
Proof.
  cbv zeta. split; [| split; [| split]].
  - split.
    + intros [e He]. apply NotFoundError_iff in He.
      destruct He as [[Hwf _] | [_ [Hlook _]]]; auto.
    + intros Hcause. destruct (isWellFormed city) eqn:Hwf.
      * destruct Hcause as [Hcause | Hlook]; [discriminate Hcause |].
        exists (lookup_error (geocoding_api env city)).
        apply NotFoundError_iff. right. auto.
      * exists malformed_URI. apply NotFoundError_iff. left. auto.
  - split.
    + intros [e He]. apply FetchError_iff in He.
      destruct He as [Hwf [best [Hplace [Hfail _]]]].
      split; [exact Hwf |]. now exists best.
    + intros [Hwf [best [Hplace Hfail]]].
      exists (retrieval_error (forecast_api env (latitude best) (longitude best))).
      apply FetchError_iff. split; [exact Hwf |]. now exists best.
  - intros e He. rewrite (NotFoundError_run _ _ _ _ He).
    apply NotFoundError_iff in He.
    destruct He as [[Hwf ->] | [Hwf [_ ->]]]; rewrite Hwf; cbn;
      rewrite ?app_nil_r; auto.
  - intros e He. destruct (FetchError_run _ _ _ _ He) as [best [Hplace ->]].
    apply FetchError_iff in He. destruct He as [_ [b [Hb [_ ->]]]].
    rewrite Hplace in Hb. injection Hb as <-.
    exists best. repeat split; auto. cbn. now rewrite <- app_assoc.
Qed.

(** Without a network the lookup is rejected: the invocation fails in the
    Geocoder stage with the rejection, after its single request.  With a
    lone surrogate as city it fails there before any request. *)
Lemma failure_offline :
  NotFoundError offline (lit "Paris") showing_mild_day
    (TypeError (lit "Failed to fetch")) /\
  fst (fetchWeather_try offline (lit "Paris") showing_mild_day) =
    inl (TypeError (lit "Failed to fetch")) /\
  requests (snd (fetchWeather_try offline (lit "Paris") showing_mild_day)) =
    [GeocodingRequest (lit "Paris")] /\
  NotFoundError online [55296%N] showing_mild_day malformed_URI /\
  requests (snd (fetchWeather_try online [55296%N] showing_mild_day)) = [].
Proof.
  assert (H : NotFoundError offline (lit "Paris") showing_mild_day
                (TypeError (lit "Failed to fetch"))) by reflexivity.
  assert (H' : NotFoundError online [55296%N] showing_mild_day malformed_URI)
    by reflexivity.
  pose proof (proj2 (proj1 (proj2 (proj2
                (failure_kinds offline (lit "Paris") showing_mild_day)))
                (TypeError (lit "Failed to fetch")) H)) as [Hf Hr].
  pose proof (proj2 (proj2 (proj1 (proj2 (proj2
                (failure_kinds online [55296%N] showing_mild_day)))
                malformed_URI H'))) as Hr'.
  split; [exact H |]. split; [exact Hf |]. split; [exact Hr |].
  split; [exact H' | exact Hr'].
Defined.

(** The weather service answers with an error status: FetchError, with the
    [Error] of the status check. *)
Example failure_weather_down :
  FetchError weather_down (lit "Paris") showing_mild_day Unable_to_fetch.
Proof.
  exists paris_france, (add_request (GeocodingRequest (lit "Paris")) showing_mild_day).
  split; reflexivity.
Qed.

(** C9, as the specification states it, fails: when the response comes
    without its hourly block, the invocation fails after [setWeatherData],
    so the view is replaced while the forecast shown before stays. *)
Lemma partial_replacement :
  ~ (forall env city w e,
       fst (fetchWeather_try env city w) = inl e ->
       weatherData (app (snd (fetchWeather env city w))) = weatherData (app w) /\
       forecast (app (snd (fetchWeather env city w))) = forecast (app w)).
Proof.
  intros H.
  destruct (H no_hourly_block (lit "Paris") showing_mild_day
              (TypeError (lit "Cannot read properties of undefined (reading 'time')"))
              eq_refl) as [Hview _].
  apply (f_equal (option_map
                    (fun wd => Weather.main (WeatherData.weather_0 wd)))) in Hview.
  vm_compute in Hview. discriminate Hview.
Qed.

(** C9, amended. When an invocation fails in the Geocoder stage or in the
    Weather Fetcher stage, the view and the forecast shown before stay as
    they were, neither of them replaced, and so does the location label; the
    error message is the one generic message whatever was thrown; the loading
    flag is cleared; and what was thrown goes to the console only. *)
Theorem failure_keeps_view (env : Env) (city : jsstring) (w : World) (e : exn) :
  NotFoundError env city w e \/ FetchError env city w e ->
  let w' := snd (fetchWeather env city w) in
  weatherData (app w') = weatherData (app w) /\
  forecast (app w') = forecast (app w) /\
  location (app w') = location (app w) /\
  error (app w') = user_message /\
  loading (app w') = false /\
  console w' = console w ++ [e] /\
  fst (fetchWeather env city w) = inr tt.
Proof.
  intros Hfail.
  destruct (fetchWeather_failure env city w e Hfail) as [Hret [Happ Hcon]].
  cbv zeta. rewrite Happ, Hcon, Hret. repeat split.
Qed.

(** Scenario D for the weather service: Paris stays on screen under the
    message. *)
Lemma failure_keeps_mild_day :
  FetchError weather_down (lit "Oslo") showing_mild_day Unable_to_fetch /\
  weatherData (app (snd (fetchWeather weather_down (lit "Oslo") showing_mild_day)))
    = Some mild_day /\
  error (app (snd (fetchWeather weather_down (lit "Oslo") showing_mild_day)))
    = user_message.
Proof.
  assert (H : FetchError weather_down (lit "Oslo") showing_mild_day Unable_to_fetch).
  { exists paris_france,
      (add_request (GeocodingRequest (lit "Oslo")) showing_mild_day).
    split; reflexivity. }
  pose proof (failure_keeps_view weather_down (lit "Oslo") showing_mild_day
                Unable_to_fetch (or_intror H)) as K.
  cbv zeta in K. destruct K as [Kw [_ [_ [Ke _]]]].
  split; [exact H |]. split; [exact Kw | exact Ke].
Defined.

(* ================================================================== *)
(** * Search *)
(* ================================================================== *)

Lemma blank_app (a b : jsstring) : blank (a ++ b) = blank a && blank b.
Proof. apply forallb_app. Qed.

Lemma blank_rev (s : jsstring) : blank (rev s) = blank s.
Proof.
  induction s as [|c s IH]; [reflexivity |].
  cbn [rev]. rewrite blank_app, IH. cbn. now rewrite andb_true_r, andb_comm.
Qed.

Lemma trimStart_split (s : jsstring) :
  exists pre, s = pre ++ trimStart s /\ blank pre = true.
Proof.
  induction s as [|c s [pre [Hs Hpre]]]; [now exists [] |].
  cbn [trimStart]. destruct (is_whitespace c) eqn:Hc.
  - exists (c :: pre). split; [now rewrite <- app_comm_cons, <- Hs |].
    unfold blank in *. cbn [forallb]. now rewrite Hc, Hpre.
  - now exists [].
Qed.

Lemma trimStart_head (s : jsstring) (c : char16) (rest : jsstring) :
  trimStart s = c :: rest -> is_whitespace c = false.
Proof.
  induction s as [|d s IH]; [discriminate |].
  cbn [trimStart]. destruct (is_whitespace d) eqn:Hd; [exact IH |].
  now intros [= <- _].
Qed.

Lemma trimStart_nil (s : jsstring) : trimStart s = [] <-> blank s = true.
Proof.
  induction s as [|c s IH]; [easy |].
  cbn. destruct (is_whitespace c); [exact IH | easy].
Qed.

Lemma trimEnd_split (s : jsstring) :
  exists post, s = trimEnd s ++ post /\ blank post = true.
Proof.
  unfold trimEnd. destruct (trimStart_split (rev s)) as [pre [Hs Hpre]].
  exists (rev pre). split; [| now rewrite blank_rev].
  rewrite <- rev_app_distr, <- Hs. now rewrite rev_involutive.
Qed.

Lemma trimEnd_last (s rest : jsstring) (c : char16) :
  trimEnd s = rest ++ [c] -> is_whitespace c = false.
Proof.
  unfold trimEnd. intros H. apply (f_equal (@rev _)) in H.
  rewrite rev_involutive, rev_app_distr in H. cbn in H.
  now apply trimStart_head in H.
Qed.

Lemma trimEnd_nil (s : jsstring) : trimEnd s = [] <-> blank s = true.
Proof.
  unfold trimEnd. rewrite <- blank_rev, <- trimStart_nil. split.
  - intros H. apply (f_equal (@rev _)) in H. now rewrite rev_involutive in H.
  - now intros ->.
Qed.

Lemma trim_blank (s : jsstring) : trim s = [] <-> blank s = true.
Proof.
  unfold trim. rewrite trimEnd_nil. split.
  - intros H. apply trimStart_nil.
    destruct (trimStart s) as [|c rest] eqn:Hs; [reflexivity |].
    apply trimStart_head in Hs. cbn in H. now rewrite Hs in H.
  - intros H. apply trimStart_nil in H. now rewrite H.
Qed.

(** [trim] removes a whitespace prefix and a whitespace suffix, and what is
    left neither starts nor ends with whitespace. *)
Lemma trim_spec (s : jsstring) :
  exists pre post,
    s = pre ++ trim s ++ post /\ blank pre = true /\ blank post = true /\
    (forall c rest, trim s = c :: rest -> is_whitespace c = false) /\
    (forall rest c, trim s = rest ++ [c] -> is_whitespace c = false).
Proof.
  destruct (trimStart_split s) as [pre [Hs Hpre]].
  destruct (trimEnd_split (trimStart s)) as [post [Ht Hpost]].
  exists pre, post. unfold trim. repeat split; auto.
  - now rewrite <- Ht.
  - intros c rest H. rewrite H in Ht.
    destruct (trimStart s) as [|d u] eqn:Hd; [discriminate |].
    injection Ht as <- _. now apply trimStart_head in Hd.
  - intros rest c. apply trimEnd_last.
Qed.

(** The first thing an invocation does on the network is the lookup of the
    city it was given, when the city can be put into the URL; it sends
    nothing when it cannot. *)
Lemma fetchWeather_first_request (env : Env) (city : jsstring) (w : World) :
  if isWellFormed city
  then exists rest,
         requests (snd (fetchWeather env city w)) =
         requests w ++ GeocodingRequest city :: rest
  else requests (snd (fetchWeather env city w)) = requests w.
Proof.
  rewrite fetchWeather_unfold. unfold try_catch_finally.
  set (w0 := with_app (loading_error true []) w).
  assert (Hreq : if isWellFormed city
                 then exists rest,
                        requests (snd (fetchWeather_try env city w0)) =
                        requests w ++ GeocodingRequest city :: rest
                 else requests (snd (fetchWeather_try env city w0)) = requests w).
  { rewrite fetchWeather_try_run, geocode_run.
    destruct (isWellFormed city); [| reflexivity].
    destruct (if lookup_fails (geocoding_api env city) then _ else _)
      as [e1 | best]; [now exists [] |].
    rewrite retrieve_run. cbv zeta.
    exists [ForecastRequest (latitude best) (longitude best)].
    destruct (match forecast_api env (latitude best) (longitude best) with
              | Rejected _ => _ | Resolved _ _ => _ end) as [e2 | wr].
    - cbn. now rewrite <- app_assoc.
    - rewrite display_run.
      destruct (current wr), (hourly wr); cbn; now rewrite <- app_assoc. }
  destruct (isWellFormed city).
  - destruct Hreq as [rest Hreq]. exists rest.
    destruct (fetchWeather_try env city w0) as [[e | []] w1]; exact Hreq.
  - destruct (fetchWeather_try env city w0) as [[e | []] w1]; exact Hreq.
Qed.

(** On mount the component looks London up, from its initial state. *)
Example onMount_London (env : Env) :
  exists rest,
    requests (snd (onMount env
                     {| app := initialState; console := []; requests := [] |})) =
    GeocodingRequest (lit "London") :: rest.
Proof.
  apply (fetchWeather_first_request env (lit "London")
           {| app := initialState; console := []; requests := [] |}).
Qed.

(** C10. Submitting an input that is empty or all whitespace does
    nothing: no request is sent and the world, view state included, is as
    before.  Submitting any other input invokes [fetchWeather] with the input
    stripped of its leading and trailing whitespace, which starts by looking
    that city up when it can be put into the URL, and sends no request when
    it cannot. *)
Theorem handleSearch_trims (env : Env) (w : World) :
  let input := searchInput (app w) in
  (blank input = true -> handleSearch env w = (inr tt, w)) /\
  (blank input = false ->
   handleSearch env w = fetchWeather env (trim input) w /\
   (if isWellFormed (trim input)
    then exists rest, requests (snd (handleSearch env w)) =
                      requests w ++ GeocodingRequest (trim input) :: rest
    else requests (snd (handleSearch env w)) = requests w) /\
   exists pre post,
     input = pre ++ trim input ++ post /\
     blank pre = true /\ blank post = true /\
     (forall c rest, trim input = c :: rest -> is_whitespace c = false) /\
     (forall rest c, trim input = rest ++ [c] -> is_whitespace c = false)).
Proof.
  cbv zeta. unfold handleSearch. split.
  - intros Hb. apply trim_blank in Hb. now rewrite Hb.
  - intros Hb.
    assert (Ht : string_truthy (trim (searchInput (app w))) = true).
    { destruct (trim (searchInput (app w))) eqn:Htrim; [| reflexivity].
      apply trim_blank in Htrim. congruence. }
    rewrite Ht. split; [reflexivity |]. split.
    + apply fetchWeather_first_request.
    + apply trim_spec.
Qed.

(** The input "  Oslo " is looked up as "Oslo": the first request of the
    submission is the lookup of the trimmed text. *)
Lemma handleSearch_Oslo :
  blank (searchInput (app showing_mild_day)) = false /\
  trim (searchInput (app showing_mild_day)) = lit "Oslo" /\
  handleSearch online showing_mild_day =
    fetchWeather online (lit "Oslo") showing_mild_day /\
  exists rest,
    requests (snd (handleSearch online showing_mild_day)) =
    requests showing_mild_day ++ GeocodingRequest (lit "Oslo") :: rest.
Proof.
  pose proof (proj2 (handleSearch_trims online showing_mild_day) eq_refl)
    as [Hrun [Hreq _]].
  split; [reflexivity |]. split; [reflexivity |].
  split; [exact Hrun | exact Hreq].
Defined.

(** A blank input changes nothing. *)
Example handleSearch_blank (env : Env) :
  handleSearch env
    {| app := {| location := lit "Paris, France"; searchInput := [32; 9; 160]%N;
                 weatherData := Some mild_day; forecast := [];
                 loading := false; error := [] |};
       console := []; requests := [] |}
  = (inr tt,
     {| app := {| location := lit "Paris, France"; searchInput := [32; 9; 160]%N;
                  weatherData := Some mild_day; forecast := [];
                  loading := false; error := [] |};
        console := []; requests := [] |}).
Proof. reflexivity. Qed.

(* ================================================================== *)
(** * Every outcome of an invocation *)
(* ================================================================== *)

(** The [try] block, by its outcome. *)
Lemma fetchWeather_try_outcome (env : Env) (city : jsstring) (w : World) :
  fetchWeather_try env city w =
  (match thrown (outcome env city) with Some e => inl e | None => inr tt end,
   {| app := written env (outcome env city) (app w);
      console := console w;
      requests := requests w ++ sent city (outcome env city) |}).
Proof.
  rewrite fetchWeather_try_run, geocode_run. unfold outcome.
  destruct (isWellFormed city); cbn [negb];
    [| destruct w; cbn; now rewrite app_nil_r].
  destruct (lookup_fails (geocoding_api env city)); [reflexivity |].
  destruct (resolved_place (geocoding_api env city)) as [best |]; [| reflexivity].
  rewrite retrieve_run. cbv zeta.
  destruct (forecast_api env (latitude best) (longitude best)) as [r | ok wr].
  - unfold add_request, with_app; cbn; now rewrite <- app_assoc.
  - destruct ok.
    + rewrite display_run.
      destruct (current wr) as [cur |], (hourly wr) as [hourlyData |];
        unfold add_request, with_app; cbn; now rewrite <- app_assoc.
    + unfold add_request, with_app; cbn; now rewrite <- app_assoc.
Qed.

(** The whole invocation, by its outcome. *)
Lemma fetchWeather_outcome (env : Env) (city : jsstring) (w : World) :
  fetchWeather env city w =
  (inr tt,
   {| app := loading_error false (message (outcome env city))
               (written env (outcome env city) (app w));
      console := console w ++ logged (outcome env city);
      requests := requests w ++ sent city (outcome env city) |}).
Proof.
  rewrite fetchWeather_unfold. unfold try_catch_finally.
  rewrite fetchWeather_try_outcome. unfold message, logged.
  destruct (outcome env city); destruct w as [[] ? ?]; cbn;
    rewrite ?app_nil_r; reflexivity.
Qed.

(** The requests of each outcome. *)
Lemma outcome_place (env : Env) (city : jsstring) :
  sent city (outcome env city) =
  if isWellFormed city
  then GeocodingRequest city ::
       match resolved_place (geocoding_api env city) with
       | Some best => [ForecastRequest (latitude best) (longitude best)]
       | None => []
       end
  else [].
Proof.
  unfold outcome. destruct (isWellFormed city); [| reflexivity]. cbn [negb].
  destruct (lookup_fails (geocoding_api env city)) eqn:Hlook.
  - destruct (resolved_place (geocoding_api env city)) as [best |] eqn:Hplace;
      [| reflexivity].
    apply lookup_ok_of_place in Hplace. congruence.
  - destruct (resolved_place (geocoding_api env city)) as [best |]; [| reflexivity].
    destruct (forecast_api env (latitude best) (longitude best)) as [r | [] wr];
      try reflexivity.
    destruct (current wr), (hourly wr); reflexivity.
Qed.

(** X1. An invocation never throws, whatever the services answer and
    whatever is missing from the response: the [catch] takes every failure.
    When it is over the loading flag is down, so the page no longer shows the
    spinner. *)
Theorem fetchWeather_settles (env : Env) (city : jsstring) (w : World) :
  fst (fetchWeather env city w) = inr tt /\
  loading (app (snd (fetchWeather env city w))) = false /\
  forall today, body (render today (app (snd (fetchWeather env city w)))) <> Spinner.
Proof.
  rewrite fetchWeather_outcome. cbn. repeat split.
  intros today. destruct (weatherData _); discriminate.
Qed.

(** X2. After an invocation the error message tells how that invocation
    went, never how an earlier one did: it is empty when the [try] block ran
    to its end, and the generic message when it threw; what was thrown, and
    nothing else, is appended to the console. *)
Theorem error_tells_last_invocation (env : Env) (city : jsstring) (w : World) :
  let w' := snd (fetchWeather env city w) in
  match fst (fetchWeather_try env city w) with
  | inr _ => error (app w') = [] /\ console w' = console w
  | inl e => error (app w') = user_message /\ console w' = console w ++ [e]
  end.
Proof.
  cbv zeta. rewrite fetchWeather_outcome, fetchWeather_try_outcome.
  unfold message, logged. cbn.
  destruct (thrown (outcome env city)); cbn; rewrite ?app_nil_r; auto.
Qed.

(** X3. An invocation whose city can be put into the URL sends the
    geocoding request for that city, then the weather request at the
    coordinates of the place the lookup resolved to when it resolved to one,
    and nothing else; an invocation whose city has a lone surrogate sends
    nothing.  So there are never more than two requests, and no weather
    request without a place. *)
Theorem requests_of_an_invocation (env : Env) (city : jsstring) (w : World) :
  requests (snd (fetchWeather env city w)) =
  requests w ++
  (if isWellFormed city
   then GeocodingRequest city ::
        match resolved_place (geocoding_api env city) with
        | Some best => [ForecastRequest (latitude best) (longitude best)]
        | None => []
        end
   else []).
Proof.
  rewrite fetchWeather_outcome. cbn. now rewrite outcome_place.
Qed.

(** X4. Neither an invocation nor a submission writes the search input: the
    text field keeps what was typed, untrimmed, whatever the outcome. *)
Theorem searchInput_is_kept (env : Env) (w : World) :
  (forall city,
     searchInput (app (snd (fetchWeather env city w))) = searchInput (app w)) /\
  searchInput (app (snd (handleSearch env w))) = searchInput (app w).
Proof.
  assert (H : forall city,
             searchInput (app (snd (fetchWeather env city w))) =
             searchInput (app w)).
  { intros city. rewrite fetchWeather_outcome. cbn.
    destruct (outcome env city); reflexivity. }
  split; [exact H |].
  unfold handleSearch. destruct (string_truthy _); [apply H | reflexivity].
Qed.

(** X5. The location label is the name of the view on display: this holds
    initially and every handler keeps it, [fetchWeather] in each of its
    outcomes, also when it fails between the two writes of the view and of
    the forecast. *)
Theorem label_matches_view_invariant :
  label_matches_view initialState /\
  (forall env city w,
     label_matches_view (app w) ->
     label_matches_view (app (snd (fetchWeather env city w)))) /\
  (forall env w,
     label_matches_view (app w) ->
     label_matches_view (app (snd (handleSearch env w)))) /\
  (forall value w,
     label_matches_view (app w) ->
     label_matches_view (app (snd (onChange value w)))).
Proof.
  assert (H : forall env city w,
             label_matches_view (app w) ->
             label_matches_view (app (snd (fetchWeather env city w)))).
  { intros env city w Hinv. rewrite fetchWeather_outcome.
    unfold label_matches_view in *. cbn.
    destruct (outcome env city); cbn; auto. }
  split; [exact I |]. split; [exact H |]. split.
  - intros env w Hinv. unfold handleSearch.
    destruct (string_truthy _); [now apply H | exact Hinv].
  - intros value w Hinv. exact Hinv.
Qed.

Lemma label_matches_view_Paris :
  label_matches_view (app showing_mild_day) /\
  label_matches_view
    (app (snd (fetchWeather no_hourly_block (lit "Paris") showing_mild_day))).
Proof.
  assert (H : label_matches_view (app showing_mild_day)) by reflexivity.
  split; [exact H |].
  exact (proj1 (proj2 label_matches_view_invariant)
           no_hourly_block (lit "Paris") showing_mild_day H).
Defined.

(** X6. A response with a success status and a block missing fails the
    invocation with the generic message.  Without the [current] block
    nothing else is written.  With it and without the [hourly] block, the
    view and the location label are already replaced and the forecast is
    the one shown before, when the city could be put into the URL; when it
    could not, no request was sent and nothing else is written. *)
Theorem response_with_a_block_missing (env : Env) (city : jsstring) (w : World)
    (best : Candidate) (wr : WeatherResponse) :
  resolved_place (geocoding_api env city) = Some best ->
  forecast_api env (latitude best) (longitude best) = Resolved true wr ->
  let s' := app (snd (fetchWeather env city w)) in
  (current wr = None -> s' = loading_error false user_message (app w)) /\
  (forall cur, current wr = Some cur -> hourly wr = None ->
     s' = loading_error false user_message
            (if isWellFormed city then view_shown best cur (app w) else app w)).
Proof.
  intros Hplace Hret. cbv zeta. rewrite fetchWeather_outcome. cbn.
  unfold outcome.
  destruct (isWellFormed city); cbn [negb]; [| split; reflexivity].
  rewrite (lookup_ok_of_place _ _ Hplace), Hplace, Hret.
  split.
  - intros ->. reflexivity.
  - intros cur -> ->. reflexivity.
Qed.

Lemma response_without_hourly_block :
  resolved_place (geocoding_api no_hourly_block (lit "Paris")) = Some paris_france /\
  app (snd (fetchWeather no_hourly_block (lit "Paris") showing_mild_day)) =
    loading_error false user_message
      (view_shown paris_france scenario_B (app showing_mild_day)) /\
  app (snd (fetchWeather no_hourly_block [55296%N] showing_mild_day)) =
    loading_error false user_message (app showing_mild_day).
Proof.
  split; [reflexivity |]. split.
  - exact (proj2 (response_with_a_block_missing no_hourly_block (lit "Paris")
                    showing_mild_day paris_france
                    {| current := Some scenario_B; hourly := None |}
                    eq_refl eq_refl)
             scenario_B eq_refl eq_refl).
  - exact (proj2 (response_with_a_block_missing no_hourly_block [55296%N]
                    showing_mild_day paris_france
                    {| current := Some scenario_B; hourly := None |}
                    eq_refl eq_refl)
             scenario_B eq_refl eq_refl).
Defined.

(** X7. A successful invocation replaces the view, it does not merge: the
    state it leaves depends on the answers and on the search input only, not
    on the view, the forecast, the label or the error message that were
    there. *)
Theorem success_forgets_the_previous_view (env : Env) (city : jsstring)
    (best : Candidate) (cur : Current.t) (hourlyData : Hourly.t) (w1 w2 : World) :
  responds env city best cur hourlyData ->
  searchInput (app w1) = searchInput (app w2) ->
  app (snd (fetchWeather env city w1)) = app (snd (fetchWeather env city w2)).
Proof.
  intros Hr Hin. rewrite !(fetchWeather_success _ _ _ _ _ _ Hr). cbn.
  unfold loading_error, shown. cbn. now rewrite Hin.
Qed.

Lemma success_after_a_failure :
  responds online (lit "Paris") paris_france scenario_B two_hours /\
  app (snd (fetchWeather online (lit "Paris") after_a_failure)) =
  app (snd (fetchWeather online (lit "Paris")
              {| app := {| location := []; searchInput := lit "Atlantis";
                           weatherData := None; forecast := [];
                           loading := false; error := [] |};
                 console := []; requests := [] |})).
Proof.
  split; [now apply online_responds |].
  exact (success_forgets_the_previous_view online (lit "Paris") paris_france
           scenario_B two_hours after_a_failure _
           (online_responds (lit "Paris") eq_refl) eq_refl).
Defined.

(** X8. Searching the same city again under the same answers shows the same
    thing: a second invocation leaves the state the first one left, in every
    outcome. *)
Theorem same_search_twice (env : Env) (city : jsstring) (w : World) :
  app (snd (fetchWeather env city (snd (fetchWeather env city w)))) =
  app (snd (fetchWeather env city w)).
Proof.
  rewrite !fetchWeather_outcome. cbn.
  destruct (outcome env city); destruct w as [[] ? ?]; reflexivity.
Qed.

(* ================================================================== *)
(** * Icon and advisories *)
(* ================================================================== *)

Lemma string_eqb_eq (a b : jsstring) : string_eqb a b = true <-> a = b.
Proof.
  revert b; induction a as [|x a IH]; intros [|y b]; cbn; try easy.
  rewrite andb_true_iff, N.eqb_eq, IH. split.
  - now intros [-> ->].
  - now intros [= -> ->].
Qed.

(** The category of every integer code. *)
Lemma category_of_code (code : Z) :
  categoryOfCode code =
  if code_in rainy_codes code then Rain
  else if code_in cloudy_codes code then Clouds
  else Clear.
Proof.
  unfold categoryOfCode, getWeatherDescription, weatherCodes, property,
    code_in, rainy_codes, cloudy_codes, existsb.
  repeat match goal with
         | |- context [(?k =? code)%Z] =>
             destruct (Z.eqb_spec k code) as [<- | ?]; [reflexivity |]
         end.
  reflexivity.
Qed.

Lemma code_in_In (codes : list Z) (code : Z) :
  code_in codes code = true <-> In code codes.
Proof.
  unfold code_in. rewrite existsb_exists. split.
  - intros [k [Hk Heq]]. apply Z.eqb_eq in Heq. now subst.
  - intros H. exists code. split; [exact H | apply Z.eqb_refl].
Qed.

(** The advisories of a view, one by one. *)
Lemma getRecommendations_list (wd : WeatherData.t) :
  getRecommendations (Some wd) =
  temperature_advice (Main.temp (WeatherData.main wd)) ::
  (if Condition_eqb (Weather.main (WeatherData.weather_0 wd)) Rain
   then [advice_umbrella] else []) ++
  (if (70 <? Main.humidity (WeatherData.main wd))%float
   then [advice_hydrated] else []) ++
  (if (10 <? Wind.speed (WeatherData.wind wd))%float
   then [advice_windy] else []).
Proof.
  unfold getRecommendations, push_if, gtb, temperature_advice.
  rewrite umbrella_test.
  destruct (_ <? 10)%float; [| destruct (_ <? 20)%float];
    destruct (Condition_eqb _ _), (70 <? _)%float, (10 <? _)%float; reflexivity.
Qed.

(** The six advisories are six different strings. *)
Lemma advisories_distinct :
  NoDup [advice_warm_jacket; advice_light_jacket; advice_outdoor;
         advice_umbrella; advice_hydrated; advice_windy].
Proof.
  repeat constructor; cbn; intuition discriminate.
Qed.

Lemma temperature_advice_cases (temp : number) :
  temperature_advice temp = advice_warm_jacket \/
  temperature_advice temp = advice_light_jacket \/
  temperature_advice temp = advice_outdoor.
Proof.
  unfold temperature_advice.
  destruct (temp <? 10)%float; [| destruct (temp <? 20)%float]; auto.
Qed.

(** Which of the three conditional advisories a view gets. *)
Lemma conditional_advisories_in (wd : WeatherData.t) :
  (In advice_umbrella (getRecommendations (Some wd)) <->
   Weather.main (WeatherData.weather_0 wd) = Rain) /\
  (In advice_hydrated (getRecommendations (Some wd)) <->
   (70 <? Main.humidity (WeatherData.main wd))%float = true) /\
  (In advice_windy (getRecommendations (Some wd)) <->
   (10 <? Wind.speed (WeatherData.wind wd))%float = true).
Proof.
  rewrite getRecommendations_list.
  destruct (temperature_advice_cases (Main.temp (WeatherData.main wd)))
    as [-> | [-> | ->]];
    destruct (Weather.main (WeatherData.weather_0 wd)),
      (70 <? _)%float, (10 <? _)%float;
    cbn; repeat split; intros H; try reflexivity; try discriminate H;
    intuition discriminate.
Qed.

(** X9. The icon of the card follows the category: the rain cloud for Rain,
    the cloud for Clouds, the sun for Clear, so the rain cloud is shown
    exactly when the umbrella advisory is given.  Without a condition
    ([undefined] or the empty string) the icon is the uncoloured cloud. *)
Theorem icon_follows_category (wd : WeatherData.t) :
  let category := Weather.main (WeatherData.weather_0 wd) in
  let icon := getWeatherIcon (Some (Condition_string category)) in
  component icon =
    match category with Rain => CloudRain | Clouds => Cloud | Clear => Sun end /\
  (component icon = CloudRain <->
   In advice_umbrella (getRecommendations (Some wd))) /\
  getWeatherIcon None = {| component := Cloud; className := lit "w-16 h-16" |} /\
  getWeatherIcon (Some []) = getWeatherIcon None.
Proof.
  cbv zeta. rewrite (proj1 (conditional_advisories_in wd)).
  destruct (Weather.main (WeatherData.weather_0 wd)); cbn;
    repeat split; intros H; try reflexivity; discriminate H.
Qed.

(** X10. The advisories of a fetched view, in terms of the response: the
    umbrella advisory exactly for the weather codes 61, 65, 80 and 82, the
    hydration advisory exactly when the relative humidity is above 70, the
    wind advisory exactly when the wind speed in km/h divided by 3.6 is
    above 10. *)
Theorem advisories_of_a_response (best : Candidate) (cur : Current.t) :
  let advisories := getRecommendations (Some (transformedData best cur)) in
  (In advice_umbrella advisories <-> In (Current.weather_code cur) rainy_codes) /\
  (In advice_hydrated advisories <->
   (70 <? Current.relative_humidity_2m cur)%float = true) /\
  (In advice_windy advisories <->
   (10 <? Current.wind_speed_10m cur / 3.6)%float = true).
Proof.
  cbv zeta.
  destruct (conditional_advisories_in (transformedData best cur)) as [Hu [Hh Hw]].
  split; [| split; [exact Hh | exact Hw]].
  rewrite Hu, <- code_in_In.
  change (Weather.main (WeatherData.weather_0 (transformedData best cur)))
    with (categoryOfCode (Current.weather_code cur)).
  rewrite category_of_code.
  destruct (code_in rainy_codes _); [easy |].
  destruct (code_in cloudy_codes _); easy.
Qed.

(** X11. The icon of a fetched view, for every integer weather code: the
    rain cloud for 61, 65, 80 and 82, the cloud for 2 and 3, and the sun for
    every other code, documented or not. *)
Theorem icon_of_a_code (best : Candidate) (cur : Current.t) :
  let wd := transformedData best cur in
  let code := Current.weather_code cur in
  component
    (getWeatherIcon (Some (Condition_string (Weather.main (WeatherData.weather_0 wd)))))
  = if code_in rainy_codes code then CloudRain
    else if code_in cloudy_codes code then Cloud
    else Sun.
Proof.
  cbv zeta.
  change (Weather.main (WeatherData.weather_0 (transformedData best cur)))
    with (categoryOfCode (Current.weather_code cur)).
  rewrite category_of_code.
  destruct (code_in rainy_codes _); [reflexivity |].
  destruct (code_in cloudy_codes _); reflexivity.
Qed.

(** X12. The list of advisories never repeats an advisory, and it is empty
    exactly when no weather data is loaded. *)
Theorem recommendations_without_repeats (weatherData : option WeatherData.t) :
  NoDup (getRecommendations weatherData) /\
  (getRecommendations weatherData = [] <-> weatherData = None).
Proof.
  destruct weatherData as [wd |].
  - rewrite getRecommendations_list. split; [| split; discriminate].
    destruct (temperature_advice_cases (Main.temp (WeatherData.main wd)))
      as [-> | [-> | ->]];
      destruct (Condition_eqb _ _), (70 <? _)%float, (10 <? _)%float;
      repeat constructor; cbn; intuition discriminate.
  - split; [constructor | easy].
Qed.

(* ================================================================== *)
(** * The page and its handlers *)
(* ================================================================== *)

(** X13. When an invocation fails in one of the two network stages, the page
    rendered afterwards is the page rendered before it with the error banner
    on top: the same search field and the same body, the dashboard with its
    card, advisories and charts if one was on display, nothing if none
    was. *)
Theorem page_after_a_network_failure (env : Env) (city : jsstring) (w : World)
    (e : exn) (today : jsstring) :
  NotFoundError env city w e \/ FetchError env city w e ->
  loading (app w) = false ->
  render today (app (snd (fetchWeather env city w))) =
  {| search_value := search_value (render today (app w));
     banner := Some user_message;
     body := body (render today (app w)) |}.
Proof.
  intros Hfail Hload.
  destruct (fetchWeather_failure env city w e Hfail) as [_ [-> _]].
  destruct (app w) as [loc input view fc ld err]. cbn in Hload. subst ld.
  unfold render, loading_error. cbn. destruct view; reflexivity.
Qed.

Lemma page_keeps_mild_day :
  FetchError weather_down (lit "Oslo") showing_mild_day Unable_to_fetch /\
  body (render (lit "Wednesday, May 1, 2024")
          (app (snd (fetchWeather weather_down (lit "Oslo") showing_mild_day)))) =
  Shown (dashboard (lit "Wednesday, May 1, 2024") (app showing_mild_day) mild_day).
Proof.
  assert (H : FetchError weather_down (lit "Oslo") showing_mild_day Unable_to_fetch).
  { exists paris_france,
      (add_request (GeocodingRequest (lit "Oslo")) showing_mild_day).
    split; reflexivity. }
  split; [exact H |].
  exact (f_equal body
           (page_after_a_network_failure weather_down (lit "Oslo") showing_mild_day
              Unable_to_fetch (lit "Wednesday, May 1, 2024")
              (or_intror H) eq_refl)).
Defined.

(** X14. Typing a text and pressing Enter looks up the trimmed text, and the
    field keeps the text as typed; a text that is blank sends nothing;
    pressing any other key does nothing; and the search button does what
    Enter does. *)
Theorem typing_then_Enter (env : Env) (text : jsstring) (w : World) :
  let typed := snd (onChange text w) in
  searchInput (app typed) = text /\
  onKeyPress env (lit "Enter") typed =
    (if blank text then (inr tt, typed) else fetchWeather env (trim text) typed) /\
  searchInput (app (snd (onKeyPress env (lit "Enter") typed))) = text /\
  (forall key, key <> lit "Enter" -> onKeyPress env key typed = (inr tt, typed)) /\
  onClick env typed = onKeyPress env (lit "Enter") typed.
Proof.
  cbv zeta.
  assert (Hkey : onKeyPress env (lit "Enter") (snd (onChange text w)) =
                 if blank text then (inr tt, snd (onChange text w))
                 else fetchWeather env (trim text) (snd (onChange text w))).
  { unfold onKeyPress.
    replace (string_eqb (lit "Enter") (lit "Enter")) with true by reflexivity.
    unfold handleSearch.
    change (searchInput (app (snd (onChange text w)))) with text.
    destruct (blank text) eqn:Hb.
    - apply trim_blank in Hb. now rewrite Hb.
    - destruct (trim text) eqn:Ht; [| reflexivity].
      apply trim_blank in Ht. congruence. }
  split; [reflexivity |]. split; [exact Hkey |]. split; [| split].
  - rewrite Hkey. destruct (blank text); [reflexivity |].
    rewrite fetchWeather_outcome. cbn.
    destruct (outcome env (trim text)); reflexivity.
  - intros key Hne. unfold onKeyPress.
    destruct (string_eqb key (lit "Enter")) eqn:Heq; [| reflexivity].
    apply string_eqb_eq in Heq. contradiction.
  - reflexivity.
Qed.

Lemma typing_Oslo_then_Enter :
  onKeyPress online (lit "Enter") (snd (onChange (lit " Oslo") showing_mild_day)) =
  fetchWeather online (lit "Oslo") (snd (onChange (lit " Oslo") showing_mild_day)).
Proof.
  exact (proj1 (proj2 (typing_then_Enter online (lit " Oslo") showing_mild_day))).
Defined.

(* ================================================================== *)
(** * The forecast as slices of the hourly arrays *)
(* ================================================================== *)

(** Reading [n] consecutive indices from [start], as far as the array goes,
    is slicing it. *)
Lemma window_slice {A} (arr : list A) (d : A) (start n : nat) :
  map (fun i => nth i arr d) (seq start (Nat.min n (length arr - start))) =
  slice arr start n.
Proof.
  unfold slice. apply nth_ext with (d := d) (d' := d).
  - rewrite length_map, length_seq, length_firstn, length_skipn. reflexivity.
  - intros i. rewrite length_map, length_seq. intros Hi.
    rewrite nth_firstn, nth_skipn.
    destruct (Nat.ltb_spec i n) as [_ | Hge]; [| lia].
    rewrite nth_indep with (d' := nth 0 arr d)
      by (rewrite length_map, length_seq; exact Hi).
    rewrite (map_nth (fun i => nth i arr d)).
    rewrite seq_nth by exact Hi. reflexivity.
Qed.

(** X15. A forecast point whose index is past the end of a value array,
    shorter than [time], still is a point: its temperature (or feels-like
    value) is NaN, its humidity is undefined and its rain probability is 0;
    a [null] temperature entry gives 0. *)
Theorem forecast_point_past_an_array (format : jsstring -> jsstring)
    (hourlyData : Hourly.t) (currentHour i : nat) (p : ForecastPoint.t) :
  nth_error (processedForecast format hourlyData currentHour) i = Some p ->
  let hour := currentHour + i in
  (length (Hourly.temperature_2m hourlyData) <= hour ->
   ForecastPoint.temp p = nan) /\
  (length (Hourly.apparent_temperature hourlyData) <= hour ->
   ForecastPoint.feels_like p = nan) /\
  (length (Hourly.relative_humidity_2m hourlyData) <= hour ->
   ForecastPoint.humidity p = Undefined) /\
  (length (Hourly.precipitation_probability hourlyData) <= hour ->
   ForecastPoint.rain p = Num 0%float) /\
  (nth_error (Hourly.temperature_2m hourlyData) hour = Some Null ->
   ForecastPoint.temp p = 0%float).
Proof.
  intros Hp. cbv zeta.
  assert (Hi : i < length (processedForecast format hourlyData currentHour))
    by (apply nth_error_Some; congruence).
  rewrite (processedForecast_nth _ _ _ _ Hi) in Hp. injection Hp as <-.
  cbn [forecastPoint ForecastPoint.temp ForecastPoint.feels_like
       ForecastPoint.humidity ForecastPoint.rain].
  unfold index. repeat split; intros H.
  - now rewrite nth_overflow.
  - now rewrite nth_overflow.
  - now rewrite nth_overflow.
  - now rewrite nth_overflow.
  - apply nth_error_nth with (d := Undefined) in H. now rewrite H.
Qed.

Lemma forecast_of_ragged_hours :
  nth_error (processedForecast (fun s => s) ragged_hours 0) 1 =
    Some (forecastPoint (fun s => s) ragged_hours 1) /\
  ForecastPoint.temp (forecastPoint (fun s => s) ragged_hours 1) = nan /\
  ForecastPoint.rain (forecastPoint (fun s => s) ragged_hours 1) = Num 0%float.
Proof.
  assert (H : nth_error (processedForecast (fun s => s) ragged_hours 0) 1 =
              Some (forecastPoint (fun s => s) ragged_hours 1)) by reflexivity.
  pose proof (forecast_point_past_an_array (fun s => s) ragged_hours 0 1 _ H) as F.
  cbv zeta in F. destruct F as [Ft [_ [_ [Fr _]]]].
  split; [exact H |]. split; [apply Ft; cbn; lia | apply Fr; cbn; lia].
Defined.

(** X16. The loop is a slice: the time labels of the forecast are the
    formatted entries of [time.slice(currentHour, currentHour + 8)], and
    when the value arrays are as long as [time], the other fields are the
    same slice of their arrays, rounded for the two temperatures and with
    [|| 0] for the rain probability. *)
Theorem forecast_is_a_slice (format : jsstring -> jsstring)
    (hourlyData : Hourly.t) (currentHour : nat) :
  let points := processedForecast format hourlyData currentHour in
  map ForecastPoint.time points =
    map format (slice (Hourly.time hourlyData) currentHour 8) /\
  (parallel hourlyData ->
   map ForecastPoint.temp points =
     map (fun v => Math_round (ToNumber v))
         (slice (Hourly.temperature_2m hourlyData) currentHour 8) /\
   map ForecastPoint.feels_like points =
     map (fun v => Math_round (ToNumber v))
         (slice (Hourly.apparent_temperature hourlyData) currentHour 8) /\
   map ForecastPoint.humidity points =
     slice (Hourly.relative_humidity_2m hourlyData) currentHour 8 /\
   map ForecastPoint.rain points =
     map (fun v => or_else v (Num 0%float))
         (slice (Hourly.precipitation_probability hourlyData) currentHour 8)).
Proof.
  cbv zeta. rewrite processedForecast_window, !map_map. split.
  - rewrite <- (window_slice (Hourly.time hourlyData) []), map_map. reflexivity.
  - intros [Ht [Hh [Ha Hr]]]. repeat split.
    + rewrite <- Ht, <- (window_slice _ Undefined), map_map. reflexivity.
    + rewrite <- Ha, <- (window_slice _ Undefined), map_map. reflexivity.
    + rewrite <- Hh, <- (window_slice _ Undefined). reflexivity.
    + rewrite <- Hr, <- (window_slice _ Undefined), map_map. reflexivity.
Qed.

Lemma forecast_of_two_hours :
  parallel two_hours /\
  map ForecastPoint.humidity (processedForecast (fun s => s) two_hours 1) =
    slice (Hourly.relative_humidity_2m two_hours) 1 8.
Proof.
  assert (H : parallel two_hours) by (repeat split).
  split; [exact H |].
  exact (proj1 (proj2 (proj2 (proj2
           (forecast_is_a_slice (fun s => s) two_hours 1) H)))).
Defined.

(* ================================================================== *)
(** * From the answers to the page *)
(* ================================================================== *)

#[local] Arguments slice : simpl never.

(** X17. The place named is the place asked about: after a successful
    invocation the location label is the display name of the best match and
    the weather request, the last request sent, went to the coordinates of
    that same candidate, one of those the lookup returned. *)
Theorem label_and_coordinates_agree (env : Env) (city : jsstring)
    (best : Candidate) (cur : Current.t) (hourlyData : Hourly.t) (w : World) :
  responds env city best cur hourlyData ->
  let w' := snd (fetchWeather env city w) in
  location (app w') = displayName best /\
  last (requests w') (GeocodingRequest city) =
    ForecastRequest (latitude best) (longitude best) /\
  exists candidates,
    results_of (geocoding_api env city) = Some candidates /\ In best candidates.
Proof.
  intros Hr. cbv zeta. rewrite (fetchWeather_success _ _ _ _ _ _ Hr). cbn.
  split; [reflexivity |]. split.
  - replace (requests w ++ [GeocodingRequest city;
                            ForecastRequest (latitude best) (longitude best)])
      with ((requests w ++ [GeocodingRequest city]) ++
            [ForecastRequest (latitude best) (longitude best)])
      by now rewrite <- app_assoc.
    apply last_last.
  - destruct Hr as [_ [candidates [Hgeo [Hbest _]]]]. exists candidates.
    rewrite Hgeo. split; [reflexivity |].
    destruct (bestMatch_nonempty candidates) as [r [Hr' Hin]].
    + intros ->. discriminate Hbest.
    + congruence.
Qed.

Lemma label_and_coordinates_of_Paris :
  responds online (lit "Paris") paris_france scenario_B two_hours /\
  location (app (snd (fetchWeather online (lit "Paris") showing_mild_day))) =
    lit "Paris, France" /\
  last (requests (snd (fetchWeather online (lit "Paris") showing_mild_day)))
       (GeocodingRequest (lit "Paris")) =
    ForecastRequest 48.85341%float 2.3488%float.
Proof.
  pose proof (label_and_coordinates_agree online (lit "Paris") paris_france
                scenario_B two_hours showing_mild_day
                (online_responds (lit "Paris") eq_refl)) as [Hl [Hc _]].
  split; [now apply online_responds |]. split; [exact Hl | exact Hc].
Defined.

(** X18. The page after a successful invocation: no error banner, no
    spinner, the dashboard with the display name of the best match as
    heading and the advisories of the new view; and the three charts have
    the same rows, at most 8, labelled by the formatted entries of
    [time.slice(hour, hour + 8)]. *)
Theorem page_after_a_success (env : Env) (city : jsstring) (best : Candidate)
    (cur : Current.t) (hourlyData : Hourly.t) (w : World) (today : jsstring) :
  responds env city best cur hourlyData ->
  let page := render today (app (snd (fetchWeather env city w))) in
  let labels :=
    map (toLocaleTimeString env) (slice (Hourly.time hourlyData) (getHours env) 8) in
  banner page = None /\
  exists d,
    body page = Shown d /\
    Card.heading (card d) = displayName best /\
    advisories d = getRecommendations (Some (transformedData best cur)) /\
    map (fun row => fst (fst row)) (temperature_chart d) = labels /\
    map fst (humidity_chart d) = labels /\
    map fst (rain_chart d) = labels /\
    length labels <= 8.
Proof.
  intros Hr. cbv zeta. rewrite (fetchWeather_success _ _ _ _ _ _ Hr).
  cbn. split; [reflexivity |]. eexists. split; [reflexivity |].
  cbn. rewrite !map_map. cbn.
  assert (Hlabels :
            map ForecastPoint.time
              (processedForecast (toLocaleTimeString env) hourlyData (getHours env)) =
            map (toLocaleTimeString env)
              (slice (Hourly.time hourlyData) (getHours env) 8)).
  { rewrite processedForecast_window, map_map.
    rewrite <- (window_slice (Hourly.time hourlyData) []), map_map. reflexivity. }
  repeat split; try exact Hlabels.
  rewrite length_map. unfold slice. apply firstn_le_length.
Qed.

Lemma page_of_Paris :
  responds online (lit "Paris") paris_france scenario_B two_hours /\
  banner (render (lit "Wednesday, May 1, 2024")
            (app (snd (fetchWeather online (lit "Paris") after_a_failure)))) = None.
Proof.
  split; [now apply online_responds |].
  exact (proj1 (page_after_a_success online (lit "Paris") paris_france scenario_B
                  two_hours after_a_failure (lit "Wednesday, May 1, 2024")
                  (online_responds (lit "Paris") eq_refl))).
Defined.

Lemma lower16_lower (c : char16) : (lower16 c < 65 \/ 90 < lower16 c)%N.
Proof.
  unfold lower16.
  destruct (N.leb_spec 65 c), (N.leb_spec c 90); cbn; lia.
Qed.

(** The codes whose shown description contains "rain" or "shower" while
    their category is not Rain. *)
Lemma capitalised_codes_test (code : Z) :
  (includes (toLowerCase (getWeatherDescription code)) (lit "rain")
   || includes (toLowerCase (getWeatherDescription code)) (lit "shower"))
  && negb (Condition_eqb (categoryOfCode code) Rain)
  = code_in capitalised_codes code.
Proof.
  unfold categoryOfCode, getWeatherDescription, weatherCodes, property, code_in,
    capitalised_codes, existsb.
  repeat match goal with
         | |- context [(?k =? code)%Z] =>
             destruct (Z.eqb_spec k code) as [<- | ?]; [reflexivity |]
         end.
  reflexivity.
Qed.

Lemma Condition_eqb_eq (a b : Condition) : Condition_eqb a b = true <-> a = b.
Proof.
  destruct a, b; split; intros H; try reflexivity; discriminate H.
Qed.

(** X19. The description of a fetched view is the table text in lower case,
    of the same length and without a capital letter, for every code.  The
    category is decided on the text as written in the table: the description
    shown contains "rain" or "shower" while the category is not Rain exactly
    for the codes 63 and 81. *)
Theorem description_and_category (best : Candidate) (cur : Current.t) :
  let code := Current.weather_code cur in
  let view := WeatherData.weather_0 (transformedData best cur) in
  Weather.description view = toLowerCase (getWeatherDescription code) /\
  length (Weather.description view) = length (getWeatherDescription code) /\
  lower_case (Weather.description view) /\
  ((contains (Weather.description view) (lit "rain") \/
    contains (Weather.description view) (lit "shower")) /\
   Weather.main view <> Rain <->
   In code capitalised_codes).
Proof.
  cbv zeta. cbn [transformedData WeatherData.weather_0 Weather.description
                 Weather.main].
  split; [reflexivity |]. split; [apply length_map |]. split.
  - unfold lower_case, toLowerCase. apply Forall_map, Forall_forall.
    intros c _. apply lower16_lower.
  - rewrite <- !includes_spec, <- orb_true_iff, <- code_in_In.
    rewrite <- capitalised_codes_test, andb_true_iff, negb_true_iff.
    fold (categoryOfCode (Current.weather_code cur)).
    split; intros [H1 H2]; (split; [exact H1 |]).
    + destruct (Condition_eqb _ Rain) eqn:Heq; [| reflexivity].
      apply Condition_eqb_eq in Heq. now apply H2 in Heq.
    + intros Heq. apply Condition_eqb_eq in Heq.
      change (Weather.main (WeatherData.weather_0 (transformedData best cur)))
        with (categoryOfCode (Current.weather_code cur)) in Heq.
      congruence.
Qed.
